(** * simple-auth-jwt: token verification and session lifecycle

    A shallow embedding of
    - [project/dependencies/auth.py]   (the four request verifiers),
    - [project/app/api/v1/auth.py]     (login, logout and refresh handlers),
    - [project/db/crud/crud_token.py]  (the refresh-token data access class),
    - [project/db/crud/crud_roles.py]  (the roles data access class),
    followed by the properties of the token lifecycle.

    Python exceptions are values of [Exn]; a computation that may raise
    returns [Res]; code that talks to the database session runs in the
    state-and-exception monad [M], which also records the calls it makes.
    The handlers take the data access object as an argument; the
    statements about refresh and logout are made on the class as
    [crud_token.py] defines it. What the interpreter and python-jose contribute to the verifiers
    ([int] on a string, the failures of [jwt.decode] before its expiry
    check) is the class [Runtime], over which every statement about the
    verifiers is generic. *)

From Stdlib Require Import String Ascii List ZArith Bool Lia DecimalString.
Import ListNotations.
Local Open Scope string_scope.
Local Open Scope Z_scope.

(* ------------------------------------------------------------------ *)
(** * Python values, exceptions and results *)
(* ------------------------------------------------------------------ *)

(** Modelled from the spec: [app/core/exception.py] is not part of the
    sources; it exports the two module-level HTTP errors the verifiers and
    handlers raise, the spec's [CredentialsInvalid] and [TokenExpired]. *)
Inductive HTTPExc : Type :=
| credentials_exception
| token_expired_exception.

(** The exception classes that occur in the three modules. *)
Inductive Exn : Type :=
| HTTPException (h : HTTPExc)
| ValueError (msg : string)
| TypeError (msg : string)
| AttributeError (msg : string)
| OverflowError (msg : string)
| ValidationError                    (* pydantic *)
| JWTError                           (* jose.exceptions *)
| JWTClaimsError                     (* subclass of JWTError *)
| ExpiredSignatureError              (* subclass of JWTError *)
| Exception (msg : string)           (* a bare [Exception('...')] *)
| StorageError (msg : string)        (* raised by the persistence layer *)
| DecryptionError.

(** [isinstance(e, jwt.JWTError)] *)
Definition is_JWTError (e : Exn) : bool :=
  match e with
  | JWTError | JWTClaimsError | ExpiredSignatureError => true
  | _ => false
  end.

(** [isinstance(e, ValueError)]; pydantic's [ValidationError] derives from
    [ValueError]. *)
Definition is_ValueError (e : Exn) : bool :=
  match e with
  | ValueError _ | ValidationError => true
  | _ => false
  end.

(** [str(e)] *)
Definition str_exn (e : Exn) : string :=
  match e with
  | ValueError m | TypeError m | AttributeError m | OverflowError m
  | Exception m | StorageError m => m
  | HTTPException credentials_exception => "credentials_exception"
  | HTTPException token_expired_exception => "token_expired_exception"
  | ValidationError => "validation error"
  | JWTError => "JWTError"
  | JWTClaimsError => "JWTClaimsError"
  | ExpiredSignatureError => "Signature has expired."
  | DecryptionError => "DecryptionError"
  end.

Inductive Res (A : Type) : Type :=
| Ok (a : A)
| Raise (e : Exn).
Arguments Ok {A} a.
Arguments Raise {A} e.

Definition res_bind {A B} (r : Res A) (k : A -> Res B) : Res B :=
  match r with
  | Ok a => k a
  | Raise e => Raise e
  end.

(** A [float]: the finite ones are [m * 2 ^ e]. *)
Inductive PyFloat : Type :=
| Finite (m e : Z)
| Infinity (negative : bool)
| NaN.

(** A JSON value as [json.loads] yields it; lists and objects are not
    inspected by the code and are kept opaque. *)
Inductive JSON : Type :=
| JNull
| JBool (b : bool)
| JInt (n : Z)
| JStr (s : string)
| JOther
| JFloat (x : PyFloat).

(** The claims of a decoded token: a [dict] with string keys. *)
Definition Payload : Type := list (string * JSON).

Fixpoint dict_get (k : string) (d : Payload) : option JSON :=
  match d with
  | [] => None
  | (k', v) :: d' => if String.eqb k k' then Some v else dict_get k d'
  end.

Definition dict_has (k : string) (d : Payload) : bool :=
  match dict_get k d with Some _ => true | None => false end.

(** [not s] for an [Optional[str]]: [None] and the empty string are falsy. *)
Definition falsy (s : option string) : bool :=
  match s with
  | None => true
  | Some s => String.eqb s ""
  end.

(** [str.lower] on the ASCII letters (the comparison with ["bearer"] below
    cannot be affected by other characters). *)
Definition lower_ascii (c : ascii) : ascii :=
  let n := nat_of_ascii c in
  if andb (Nat.leb 65 n) (Nat.leb n 90) then ascii_of_nat (n + 32) else c.

Fixpoint lower (s : string) : string :=
  match s with
  | EmptyString => EmptyString
  | String c s' => String (lower_ascii c) (lower s')
  end.

(** [str.partition(" ")], first and last component. *)
Fixpoint partition_space (s : string) : string * string :=
  match s with
  | EmptyString => (EmptyString, EmptyString)
  | String c s' =>
      if Ascii.eqb c " "%char then (EmptyString, s')
      else let '(a, b) := partition_space s' in (String c a, b)
  end.

(** [fastapi.security.utils.get_authorization_scheme_param] *)
Definition get_authorization_scheme_param (authorization : option string)
  : string * string :=
  if falsy authorization then ("", "")
  else match authorization with
       | Some v => partition_space v
       | None => ("", "")
       end.

(* ------------------------------------------------------------------ *)
(** * schemas/token.py *)
(* ------------------------------------------------------------------ *)

(** Modelled from the spec: [schemas/token.py] is not part of the sources.
    The verified-request context has a subject, the presented access token
    and an optional refresh token. *)
Module TokenUser.
Record t : Type := mk {
  sub : string;
  access_token : string;
  refresh_token : option string
}.
End TokenUser.

(** Modelled from the spec: the request body of the refresh endpoint carries
    both token values. *)
Module TokenRefreshRequestSchema.
Record t : Type := mk {
  access_token : string;
  refresh_token : string
}.
End TokenRefreshRequestSchema.

(** Modelled from the spec: the validation that the [TokenUser] model of
    [schemas/token.py] (not part of the sources) runs on its keyword
    arguments. [sub] is required and a string, [refresh_token] is an optional
    string, keys the model does not declare are ignored. The arguments are
    the payload's claims together with the explicit [access_token] and, when
    [r_given], the explicit [refresh_token]. *)
Definition TokenUser_validate (payload : Payload) (a : string)
                              (r : option string) (r_given : bool)
  : Res TokenUser.t :=
  match dict_get "sub" payload with
  | Some (JStr s) =>
      if r_given then Ok (TokenUser.mk s a r)
      else match dict_get "refresh_token" payload with
           | None | Some JNull => Ok (TokenUser.mk s a None)
           | Some (JStr x) => Ok (TokenUser.mk s a (Some x))
           | Some _ => Raise ValidationError
           end
  | _ => Raise ValidationError
  end.

(** [TokenUser( **payload, access_token=a, refresh_token=r)], and without the
    last keyword when [r_given] is [false]. A key of [payload] that repeats
    an explicit keyword makes the call itself raise [TypeError], before the
    model sees any argument. *)
Definition TokenUser_new (payload : Payload) (a : string) (r : option string)
                         (r_given : bool) : Res TokenUser.t :=
  if dict_has "access_token" payload then
    Raise (TypeError "got multiple values for keyword argument 'access_token'")
  else if andb r_given (dict_has "refresh_token" payload) then
    Raise (TypeError "got multiple values for keyword argument 'refresh_token'")
  else TokenUser_validate payload a r r_given.

(* ------------------------------------------------------------------ *)
(** * jose.jwt.decode *)
(* ------------------------------------------------------------------ *)

(** python-jose is a dependency of the repository. Its [jwt.decode] is
    modelled by the order of its checks: the signing layer with the [iat]
    and [nbf] checks, then the expiry when [verify_exp] is set, then the
    remaining registered claims. The time claims are read with [int(...)]
    and only the [ValueError] of that call is caught, so a [TypeError] or an
    [OverflowError] of [int] leaves [jwt.decode] as it is. Only the expiry
    check raises [ExpiredSignatureError]. *)

(** How [jwt.decode] fails on a token that does not reach the expiry
    check. *)
Inductive EarlyFailure : Type :=
| BadToken                        (* [JWTError]: signature, header or payload *)
| BadTimeClaim                    (* [JWTClaimsError]: [iat] or [nbf] reads as no
                                     integer, or [nbf] lies in the future *)
| IntTypeError (msg : string)     (* [TypeError] of [int] on [iat] or [nbf] *)
| IntOverflowError (msg : string) (* [OverflowError] of [int] on [iat] or [nbf] *).

Definition early_exn (f : EarlyFailure) : Exn :=
  match f with
  | BadToken => JWTError
  | BadTimeClaim => JWTClaimsError
  | IntTypeError m => TypeError m
  | IntOverflowError m => OverflowError m
  end.

(** What the verifiers take from the interpreter and from the library
    without the model looking inside. *)
Class Runtime : Type := mkRuntime {
  (** [int(s)] on a [str]; [None] is its [ValueError] *)
  int_of_str : string -> option Z;
  (** the text of that [ValueError] *)
  int_str_error : string -> string;
  (** the text of the [TypeError] of [int] on a value that is neither a
      number nor a string *)
  int_type_error : JSON -> string;
  (** how [jwt.decode] fails on a token that the function [jws_verify]
      below maps to [None] *)
  early_failure : string -> EarlyFailure
}.

Section Verifiers.

Context {R : Runtime}.

(** What [jwt.decode] does with [settings.jwt_access_secret_key] and
    [settings.jwt_algorithm] before it looks at the expiry: signature and
    header verification, JSON decoding and the [iat]/[nbf] checks.
    [None] stands for a failure of one of them, [early_failure] tells
    which. *)
Variable jws_verify : string -> option Payload.

(** The registered-claim checks [jwt.decode] runs after the expiry check
    ([aud], [iss], [sub], [jti], [at_hash]); [false] is a
    [JWTClaimsError]. *)
Variable claims_valid : Payload -> bool.

(** Current time, seconds since the epoch. *)
Variable now : Z.

(** [int(x)] on a value of a decoded payload: an integer is itself, a
    boolean is 0 or 1, a float is truncated towards zero, a string is
    parsed; [None], a list and an object are a [TypeError]. *)
Definition int_value (x : JSON) : Res Z :=
  match x with
  | JInt n => Ok n
  | JBool b => Ok (if b then 1 else 0)
  | JStr s =>
      match int_of_str s with
      | Some n => Ok n
      | None => Raise (ValueError (int_str_error s))
      end
  | JFloat (Finite m e) =>
      Ok (if 0 <=? e then m * 2 ^ e else Z.quot m (2 ^ (- e)))
  | JFloat (Infinity _) => Raise (OverflowError "cannot convert float infinity to integer")
  | JFloat NaN => Raise (ValueError "cannot convert float NaN to integer")
  | JNull | JOther => Raise (TypeError (int_type_error x))
  end.

(** [_validate_exp]: a missing [exp] passes; [exp = int(claims['exp'])]
    with [except ValueError] turned into a claims error and nothing else
    caught; [exp < now] is an expired signature. *)
Definition validate_exp (claims : Payload) : Res unit :=
  match dict_get "exp" claims with
  | None => Ok tt
  | Some x =>
      match int_value x with
      | Ok exp => if exp <? now then Raise ExpiredSignatureError else Ok tt
      | Raise (ValueError _) => Raise JWTClaimsError
      | Raise e => Raise e
      end
  end.

(** [jwt.decode(token, key, algorithms, options={"verify_exp": verify_exp})] *)
Definition jwt_decode (verify_exp : bool) (token : string) : Res Payload :=
  match jws_verify token with
  | None => Raise (early_exn (early_failure token))
  | Some claims =>
      res_bind (if verify_exp then validate_exp claims else Ok tt) (fun _ =>
      if claims_valid claims then Ok claims else Raise JWTClaimsError)
  end.

(** The inner [try]: [except ValidationError] logs and raises
    [credentials_exception]; any other exception passes through. *)
Definition except_validation (r : Res TokenUser.t) : Res TokenUser.t :=
  match r with
  | Raise ValidationError => Raise (HTTPException credentials_exception)
  | _ => r
  end.

(** The outer [try]: [except jwt.ExpiredSignatureError] comes first, then
    [except jwt.JWTError]; any other exception passes through. *)
Definition except_jwt (r : Res TokenUser.t) : Res TokenUser.t :=
  match r with
  | Ok t => Ok t
  | Raise e =>
      match e with
      | ExpiredSignatureError => Raise (HTTPException token_expired_exception)
      | _ => if is_JWTError e
             then Raise (HTTPException credentials_exception)
             else Raise e
      end
  end.

(** The statement shared by the four verifiers: decode, then build the
    [TokenUser] inside the inner [try], all inside the outer [try]. *)
Definition verifier_body (decoded : Res Payload)
                         (build : Payload -> Res TokenUser.t) : Res TokenUser.t :=
  except_jwt (res_bind decoded (fun payload => except_validation (build payload))).

Definition AuthorizeCookieUser (access_token refresh_token : option string)
  : Res TokenUser.t :=
  if orb (falsy access_token) (falsy refresh_token) then
    Raise (HTTPException credentials_exception)
  else
    match access_token with
    | None => Raise (HTTPException credentials_exception)
    | Some a =>
        verifier_body (jwt_decode true a)
                      (fun payload => TokenUser_new payload a refresh_token true)
    end.

Definition AuthorizeRefreshCookieUser (access_token refresh_token : option string)
  : Res TokenUser.t :=
  if orb (falsy access_token) (falsy refresh_token) then
    Raise (HTTPException credentials_exception)
  else
    match access_token with
    | None => Raise (HTTPException credentials_exception)
    | Some a =>
        verifier_body (jwt_decode false a)
                      (fun payload => TokenUser_new payload a refresh_token true)
    end.

Definition AuthorizeTokenUser (authorization : option string) : Res TokenUser.t :=
  let '(scheme, token) := get_authorization_scheme_param authorization in
  if orb (negb (String.eqb (lower scheme) "bearer")) (String.eqb token "") then
    Raise (HTTPException credentials_exception)
  else
    verifier_body (jwt_decode true token)
                  (fun payload => TokenUser_new payload token None false).

Definition AuthorizeTokenRefresh (token : TokenRefreshRequestSchema.t)
  : Res TokenUser.t :=
  if orb (String.eqb (TokenRefreshRequestSchema.access_token token) "")
         (String.eqb (TokenRefreshRequestSchema.refresh_token token) "") then
    Raise (HTTPException credentials_exception)
  else
    verifier_body (jwt_decode false (TokenRefreshRequestSchema.access_token token))
                  (fun payload =>
                     TokenUser_new payload (TokenRefreshRequestSchema.access_token token)
                                   (Some (TokenRefreshRequestSchema.refresh_token token)) true).

End Verifiers.

(* ------------------------------------------------------------------ *)
(** * Schemas and rows used by the handlers *)
(* ------------------------------------------------------------------ *)

(** A [datetime], kept as the instant it denotes (seconds since the epoch). *)
Definition datetime : Type := Z.

(** [datetime.fromtimestamp] *)
Definition fromtimestamp (ts : Z) : datetime := ts.

(** Modelled from the spec: [schemas/auth.py] is not part of the sources;
    the login request carries the e-mail address and the password. *)
Module LoginRequestSchema.
Record t : Type := mk {
  email : string;
  password : string
}.
End LoginRequestSchema.

(** Modelled from the spec: the principal record ([models/user.py] is not
    part of the sources); the handlers only read [id]. *)
Module User.
Record t : Type := mk { id : Z }.
End User.

(** Modelled from the spec: what the issuer returns,
    [{access_token, refresh_token, iat, access_expiry, refresh_expiry}];
    the handlers pass [iat] and [refresh_token_expires_in] through [int]. *)
Module CreateTokenSchema.
Record t : Type := mk {
  access_token : string;
  refresh_token : string;
  iat : string;
  access_token_expires_in : string;
  refresh_token_expires_in : string
}.
End CreateTokenSchema.

(** The keyword arguments of [InsertTokenSchema(...)] in the login handlers. *)
Module InsertTokenSchema.
Record t : Type := mk {
  user_id : Z;
  access_token : string;
  refresh_token : string;        (* ciphertext *)
  refresh_token_key : string;
  issued_at : datetime;
  expires_at : datetime
}.
End InsertTokenSchema.

(** The keyword arguments of [UpdateTokenSchema(...)] in the refresh handlers. *)
Module UpdateTokenSchema.
Record t : Type := mk {
  user_id : Z;
  old_access_token : string;
  new_access_token : string;
  refresh_token_key : string;
  refresh_token : string;        (* ciphertext *)
  expires_at : datetime
}.
End UpdateTokenSchema.

(** The keyword arguments of [TokenSchema(...)], the refresh response. *)
Module TokenSchema.
Record t : Type := mk {
  access_token : string;
  refresh_token : string
}.
End TokenSchema.

(** Modelled from the spec: a row of the [token] table ([models/token.py]
    is not part of the sources), the spec's Token Record;
    [insert(Token).values( **schema.dict())] stores the fields of an
    [InsertTokenSchema]. *)
Module Token.
Record t : Type := mk {
  user_id : Z;
  access_token : string;
  refresh_token : string;        (* ciphertext *)
  refresh_token_key : string;
  issued_at : datetime;
  expires_at : datetime
}.
Definition of_schema (r : InsertTokenSchema.t) : t :=
  mk (InsertTokenSchema.user_id r) (InsertTokenSchema.access_token r)
     (InsertTokenSchema.refresh_token r) (InsertTokenSchema.refresh_token_key r)
     (InsertTokenSchema.issued_at r) (InsertTokenSchema.expires_at r).
End Token.

(** ** Responses *)

Record Cookie : Type := mkCookie {
  key : string;
  value : string;
  httponly : bool;
  max_age : option Z
}.

Inductive Content : Type :=
| Message (message : string)                 (* [{'message': ...}] *)
| CreateToken (token : CreateTokenSchema.t)   (* [response_model=CreateTokenSchema] *)
| TokenPair (token : TokenSchema.t)           (* [response_model=TokenSchema] *)
| Null.                                      (* the handler returned [None] *)

Record Response : Type := mkResponse {
  status_code : Z;
  content : Content;
  cookies : list Cookie
}.

Definition HTTP_200_OK : Z := 200.
Definition HTTP_401_UNAUTHORIZED : Z := 401.
Definition HTTP_404_NOT_FOUND : Z := 404.
Definition HTTP_500_INTERNAL_SERVER_ERROR : Z := 500.

(** [JSONResponse({'message': m}, status_code=c)] *)
Definition JSONResponse (m : string) (c : Z) : Response :=
  mkResponse c (Message m) [].

(** [response.set_cookie(key=k, value=v, httponly=True, max_age=a)] *)
Definition set_cookie (resp : Response) (k v : string) (a : option Z) : Response :=
  mkResponse (status_code resp) (content resp)
             (cookies resp ++ [mkCookie k v true a])%list.

(* ------------------------------------------------------------------ *)
(** * The collaborators of the handlers *)
(* ------------------------------------------------------------------ *)

(** The calls a handler makes on its collaborators, in the order made. *)
Inductive Event : Type :=
| EvGetUserFromEmail (email_key : string)
| EvAuthenticate (user : option User.t) (password : string)
| EvCreateNewJwtToken (sub : string)
| EvUpdateLastLogin (user_id : Z) (login_ip : string)
| EvExists (user_id : Z) (access_token : string)
| EvGet (user_id : Z) (access_token : string)
| EvInsert (refresh_token : InsertTokenSchema.t)
| EvUpdate (update_token : UpdateTokenSchema.t)
| EvDelete (user_id : Z) (access_token : string)
| EvCommit
| EvRollback
| EvClose.

(** [true] on the calls that write to the store or end its transaction
    with a commit. *)
Definition is_mutation (ev : Event) : bool :=
  match ev with
  | EvInsert _ | EvUpdate _ | EvDelete _ _ | EvUpdateLastLogin _ _ | EvCommit => true
  | _ => false
  end.

(** An awaited call on a collaborator: it reads and writes the state [S] of
    the persistence layer and returns or raises. *)
Definition Op (S A : Type) : Type := S -> Res A * S.

(** The attributes of the [RefreshTokenDAL] instance that the handlers look
    up; [None] is an attribute the class does not define. *)
Record DAL (S : Type) : Type := mkDAL {
  dal_exists : option (Z -> string -> Op S bool);
  dal_get : option (Z -> string -> Op S (option Token.t));
  dal_insert : option (InsertTokenSchema.t -> Op S unit);
  dal_update : option (UpdateTokenSchema.t -> Op S unit);
  dal_delete : option (Z -> string -> Op S unit)
}.
Arguments mkDAL {S}.
Arguments dal_exists {S}.
Arguments dal_get {S}.
Arguments dal_insert {S}.
Arguments dal_update {S}.
Arguments dal_delete {S}.

(** Everything else a handler awaits: [UserDAL] ([db/crud/crud_user.py]),
    [authenticate] and [create_new_jwt_token] ([app/core/auth.py]), none of
    them part of the sources, and the [AsyncSession] primitives. *)
Record Backend (S : Type) : Type := mkBackend {
  get_user_from_email : string -> Op S (option User.t);
  update_last_login : Z -> string -> Op S unit;
  authenticate : option User.t -> string -> Op S bool;
  create_new_jwt_token : string -> Op S CreateTokenSchema.t;
  commit : Op S unit;
  rollback : Op S unit;
  close : Op S unit
}.
Arguments mkBackend {S}.
Arguments get_user_from_email {S}.
Arguments update_last_login {S}.
Arguments authenticate {S}.
Arguments create_new_jwt_token {S}.
Arguments commit {S}.
Arguments rollback {S}.
Arguments close {S}.

(** ** The handler monad *)

(** The state of the persistence layer together with the calls made so far. *)
Definition World (S : Type) : Type := (S * list Event)%type.

Definition M (S A : Type) : Type := World S -> Res A * World S.

Definition ret {S A} (a : A) : M S A := fun w => (Ok a, w).

Definition raise {S A} (e : Exn) : M S A := fun w => (Raise e, w).

Definition bind {S A B} (m : M S A) (k : A -> M S B) : M S B :=
  fun w =>
    match m w with
    | (Ok a, w') => k a w'
    | (Raise e, w') => (Raise e, w')
    end.

Notation "x <- m ;; k" := (bind m (fun x => k))
  (at level 61, m at next level, right associativity).
Notation "m ;;; k" := (bind m (fun _ => k))
  (at level 61, right associativity).

(** [await op(...)]: run the call and record it. *)
Definition perform {S A} (ev : Event) (op : Op S A) : M S A :=
  fun w =>
    let '(r, s') := op (fst w) in (r, (s', (snd w ++ [ev])%list)).

(** [obj.name]: attribute lookup on the data access object. *)
Definition getattr {S A} (name : string) (attr : option A) : M S A :=
  match attr with
  | Some a => ret a
  | None => raise (AttributeError
              ("'RefreshTokenDAL' object has no attribute '" ++ name ++ "'"))
  end.

(** The [try] statement of the handlers. [except] picks the first matching
    clause ([None]: no clause matches and the exception propagates); every
    clause and every [else] block of the handlers ends in [return], so they
    yield the response. The result is [Some] response when the statement
    returned and [None] when control falls through to the code after it.
    [finally] runs last in every case, and an exception it raises replaces
    the outcome. *)
Definition try_stmt {S} (body : M S unit)
                    (except : Exn -> option (M S Response))
                    (orelse : option (M S Response))
                    (finally : M S unit) : M S (option Response) :=
  fun w =>
    let '(r1, w1) := body w in
    let '(r2, w2) :=
      match r1 with
      | Ok _ =>
          match orelse with
          | Some blk => match blk w1 with
                        | (Ok resp, w') => (Ok (Some resp), w')
                        | (Raise e, w') => (Raise e, w')
                        end
          | None => (Ok None, w1)
          end
      | Raise e =>
          match except e with
          | Some handler => match handler w1 with
                            | (Ok resp, w') => (Ok (Some resp), w')
                            | (Raise e', w') => (Raise e', w')
                            end
          | None => (Raise e, w1)
          end
      end in
    match finally w2 with
    | (Ok _, w3) => (r2, w3)
    | (Raise e, w3) => (Raise e, w3)
    end.

(** The code after a [try] statement runs only when the statement did not
    return. *)
Definition or_return {S} (r : option Response) (rest : M S Response) : M S Response :=
  match r with
  | Some resp => ret resp
  | None => rest
  end.

Definition lift_res {S A} (r : Res A) : M S A :=
  match r with
  | Ok a => ret a
  | Raise e => raise e
  end.

(** [a != b] on an [Optional[str]] and a [str]. *)
Definition differs (a : option string) (b : string) : bool :=
  match a with
  | Some a' => negb (String.eqb a' b)
  | None => true
  end.

(** The synchronous collaborators: [AESCipher().encrypt],
    [AESCipher().decrypt] and [Hasher.hmac_sha256]
    ([app/core/security/encryption.py] is not part of the sources), and the
    builtins [int] (on a string; [None] is its [ValueError], whose text is
    [py_int_error]) and [str] (on an integer). *)
Record Env : Type := mkEnv {
  encrypt : string -> string;
  decrypt : string -> Res string;
  hmac_sha256 : string -> string;
  py_int : string -> option Z;
  py_int_error : string -> string;
  py_str : Z -> string
}.

(* ------------------------------------------------------------------ *)
(** * app/api/v1/auth.py *)
(* ------------------------------------------------------------------ *)

(** The handlers follow the source statement by statement. Calls to
    [app_logger] write to the process log only and are left out. *)

Section Handlers.

(** State of the persistence layer behind the request's [AsyncSession]. *)
Variable S : Type.

(** [RefreshTokenDAL(session=session)] and the other collaborators. *)
Variable D : DAL S.
Variable B : Backend S.

(** The cipher, the digest and the builtins. *)
Variable E : Env.

Definition int_ (s : string) : M S Z :=
  match py_int E s with
  | Some n => ret n
  | None => raise (ValueError (py_int_error E s))
  end.

(** [user.id]; [user] is [None] when the e-mail is unknown. *)
Definition user_id_of (user : option User.t) : M S Z :=
  match user with
  | Some u => ret (User.id u)
  | None => raise (AttributeError "'NoneType' object has no attribute 'id'")
  end.

(** [await session.rollback()], [await session.commit()],
    [await session.close()] *)
Definition session_rollback : M S unit := perform EvRollback (rollback B).
Definition session_commit : M S unit := perform EvCommit (commit B).
Definition session_close : M S unit := perform EvClose (close B).

(** [InsertTokenSchema(...)] as both login handlers build it. *)
Definition make_insert_schema (user_id : Z) (token : CreateTokenSchema.t)
  : M S InsertTokenSchema.t :=
  iat <- int_ (CreateTokenSchema.iat token) ;;
  exp <- int_ (CreateTokenSchema.refresh_token_expires_in token) ;;
  ret (InsertTokenSchema.mk
         user_id
         (CreateTokenSchema.access_token token)
         (encrypt E (CreateTokenSchema.refresh_token token))
         (hmac_sha256 E (CreateTokenSchema.refresh_token token))
         (fromtimestamp iat)
         (fromtimestamp exp)).

(** [UpdateTokenSchema(...)] as both refresh handlers build it. *)
Definition make_update_schema (token : TokenUser.t) (new_token : CreateTokenSchema.t)
  : M S UpdateTokenSchema.t :=
  user_id <- int_ (TokenUser.sub token) ;;
  exp <- int_ (CreateTokenSchema.refresh_token_expires_in new_token) ;;
  ret (UpdateTokenSchema.mk
         user_id
         (TokenUser.access_token token)
         (CreateTokenSchema.access_token new_token)
         (hmac_sha256 E (CreateTokenSchema.refresh_token new_token))
         (encrypt E (CreateTokenSchema.refresh_token new_token))
         (fromtimestamp exp)).

Definition api_login (client_host : string) (login_info : LoginRequestSchema.t)
  : M S Response :=
  let email_key := hmac_sha256 E (LoginRequestSchema.email login_info) in
  user <- perform (EvGetUserFromEmail email_key)
                  (get_user_from_email B email_key) ;;
  is_login <- perform (EvAuthenticate user (LoginRequestSchema.password login_info))
                      (authenticate B user (LoginRequestSchema.password login_info)) ;;
  if negb is_login then
    ret (JSONResponse "Incorrect username or password." HTTP_401_UNAUTHORIZED)
  else
    user_id <- user_id_of user ;;
    token <- perform (EvCreateNewJwtToken (py_str E user_id))
                     (create_new_jwt_token B (py_str E user_id)) ;;
    insert_refresh_token <- make_insert_schema user_id token ;;
    r <- try_stmt
           (insert <- getattr "insert" (dal_insert D) ;;
            perform (EvInsert insert_refresh_token) (insert insert_refresh_token) ;;;
            perform (EvUpdateLastLogin user_id client_host)
                    (update_last_login B user_id client_host) ;;;
            session_commit)
           (fun e => Some (session_rollback ;;;
                           ret (JSONResponse "Failed to select/insert data"
                                             HTTP_500_INTERNAL_SERVER_ERROR)))
           None
           session_close ;;
    or_return r (ret (mkResponse HTTP_200_OK (CreateToken token) [])).

Definition web_login (client_host : string) (login_info : LoginRequestSchema.t)
  : M S Response :=
  let email_key := hmac_sha256 E (LoginRequestSchema.email login_info) in
  user <- perform (EvGetUserFromEmail email_key)
                  (get_user_from_email B email_key) ;;
  is_login <- perform (EvAuthenticate user (LoginRequestSchema.password login_info))
                      (authenticate B user (LoginRequestSchema.password login_info)) ;;
  if negb is_login then
    ret (JSONResponse "Incorrect username or password." HTTP_401_UNAUTHORIZED)
  else
    user_id <- user_id_of user ;;
    token <- perform (EvCreateNewJwtToken (py_str E user_id))
                     (create_new_jwt_token B (py_str E user_id)) ;;
    insert_refresh_token <- make_insert_schema user_id token ;;
    r <- try_stmt
           (insert <- getattr "insert" (dal_insert D) ;;
            perform (EvInsert insert_refresh_token) (insert insert_refresh_token) ;;;
            perform (EvUpdateLastLogin user_id client_host)
                    (update_last_login B user_id client_host) ;;;
            session_commit)
           (fun e => Some (session_rollback ;;;
                           ret (JSONResponse "Failed to select/insert data"
                                             HTTP_500_INTERNAL_SERVER_ERROR)))
           None
           session_close ;;
    or_return r
      (let response := JSONResponse "login success" HTTP_200_OK in
       let response := set_cookie response "access_token"
                                  (CreateTokenSchema.access_token token) None in
       let response := set_cookie response "refresh_token"
                                  (CreateTokenSchema.refresh_token token) None in
       ret response).

(** The body of the [try] in both logout handlers, up to the exception
    raised in the [else] branch. *)
Definition logout_try (token : TokenUser.t) (not_found : Exn) : M S unit :=
  exists_ <- getattr "exists" (dal_exists D) ;;
  user_id <- int_ (TokenUser.sub token) ;;
  found <- perform (EvExists user_id (TokenUser.access_token token))
                   (exists_ user_id (TokenUser.access_token token)) ;;
  if found : bool then
    delete <- getattr "delete" (dal_delete D) ;;
    user_id' <- int_ (TokenUser.sub token) ;;
    perform (EvDelete user_id' (TokenUser.access_token token))
            (delete user_id' (TokenUser.access_token token)) ;;;
    session_commit
  else
    raise not_found.

Definition api_logout (token : TokenUser.t) : M S Response :=
  r <- try_stmt
         (logout_try token (Exception "user token not found"))
         (fun e =>
            if is_ValueError e then
              Some (session_rollback ;;;
                    ret (JSONResponse (str_exn e) HTTP_404_NOT_FOUND))
            else
              Some (session_rollback ;;;
                    ret (JSONResponse "Invalid Refresh Token" HTTP_404_NOT_FOUND)))
         None
         session_close ;;
  or_return r (ret (JSONResponse "logout success" HTTP_200_OK)).

Definition web_logout (token : TokenUser.t) : M S Response :=
  r <- try_stmt
         (logout_try token (ValueError "user token not found"))
         (fun e =>
            if is_ValueError e then
              Some (session_rollback ;;;
                    ret (JSONResponse (str_exn e) HTTP_404_NOT_FOUND))
            else
              Some (session_rollback ;;;
                    ret (JSONResponse "Token Expired fail" HTTP_404_NOT_FOUND)))
         (Some (let response := JSONResponse "logout success" HTTP_200_OK in
                let response := set_cookie response "access_token" "" (Some 0) in
                let response := set_cookie response "refresh_token" "" (Some 0) in
                ret response))
         session_close ;;
  or_return r (ret (mkResponse HTTP_200_OK Null [])).

(** The lookup and comparison that open both refresh handlers:
    [not token_info or token.refresh_token != aes.decrypt(token_info.refresh_token)]
    raises [credentials_exception]. *)
Definition refresh_check (token : TokenUser.t) : M S unit :=
  get <- getattr "get" (dal_get D) ;;
  user_id <- int_ (TokenUser.sub token) ;;
  token_info <- perform (EvGet user_id (TokenUser.access_token token))
                        (get user_id (TokenUser.access_token token)) ;;
  mismatch <- match token_info with
              | None => ret true
              | Some info =>
                  plain <- lift_res (decrypt E (Token.refresh_token info)) ;;
                  ret (differs (TokenUser.refresh_token token) plain)
              end ;;
  if mismatch : bool then raise (HTTPException credentials_exception)
  else ret tt.

Definition api_token_refresh (token : TokenUser.t) : M S Response :=
  refresh_check token ;;;
  new_token <- perform (EvCreateNewJwtToken (TokenUser.sub token))
                       (create_new_jwt_token B (TokenUser.sub token)) ;;
  update_token <- make_update_schema token new_token ;;
  r <- try_stmt
         (update <- getattr "update" (dal_update D) ;;
          perform (EvUpdate update_token) (update update_token) ;;;
          session_commit)
         (fun e => Some (session_rollback ;;;
                         ret (JSONResponse "Token Update failed" HTTP_404_NOT_FOUND)))
         None
         session_close ;;
  or_return r
    (ret (mkResponse HTTP_200_OK
            (TokenPair (TokenSchema.mk (CreateTokenSchema.access_token new_token)
                                       (CreateTokenSchema.refresh_token new_token)))
            [])).

Definition web_token_refresh (token : TokenUser.t) : M S Response :=
  refresh_check token ;;;
  new_token <- perform (EvCreateNewJwtToken (TokenUser.sub token))
                       (create_new_jwt_token B (TokenUser.sub token)) ;;
  update_token <- make_update_schema token new_token ;;
  r <- try_stmt
         (update <- getattr "update" (dal_update D) ;;
          perform (EvUpdate update_token) (update update_token) ;;;
          session_commit)
         (fun e => Some (session_rollback ;;;
                         ret (JSONResponse "Token Update failed" HTTP_404_NOT_FOUND)))
         (Some (let response := JSONResponse "refresh success" HTTP_200_OK in
                let response := set_cookie response "access_token"
                                  (CreateTokenSchema.access_token new_token) None in
                let response := set_cookie response "refresh_token"
                                  (CreateTokenSchema.refresh_token new_token) None in
                ret response))
         session_close ;;
  or_return r (ret (mkResponse HTTP_200_OK Null [])).

(** [Depends(verifier)]: the handler runs on the verified [TokenUser]; an
    exception of the verifier is the outcome of the request. *)
Definition depends (verified : Res TokenUser.t)
                   (handler : TokenUser.t -> M S Response) : M S Response :=
  token <- lift_res verified ;;
  handler token.

End Handlers.

Arguments api_login {S} D B E.
Arguments web_login {S} D B E.
Arguments api_logout {S} D B E.
Arguments web_logout {S} D B E.
Arguments api_token_refresh {S} D B E.
Arguments web_token_refresh {S} D B E.
Arguments refresh_check {S} D E.
Arguments depends {S}.

(* ------------------------------------------------------------------ *)
(** * db/crud/crud_token.py *)
(* ------------------------------------------------------------------ *)

(** The persistence layer as one request sees it: the committed rows of the
    [token] table, the rows as the open transaction sees them, how many more
    statements the layer serves before it starts to fail ([None]: it does not
    fail), and the clock the issuer reads. *)
Record Store : Type := mkStore {
  committed : list Token.t;
  pending : list Token.t;
  serves : option nat;
  clock : Z
}.

Definition with_pending (st : Store) (rows : list Token.t) : Store :=
  mkStore (committed st) rows (serves st) (clock st).

(** One round trip to the database: [None] when the layer fails. *)
Definition round_trip (st : Store) : option Store :=
  match serves st with
  | None => Some st
  | Some (S n) => Some (mkStore (committed st) (pending st) (Some n) (clock st))
  | Some O => None
  end.

(** [await self.session.execute(q)]: the statement [q] runs against the
    transaction's rows, or the layer raises. *)
Definition execute {A} (q : list Token.t -> A * list Token.t) : Op Store A :=
  fun st =>
    match round_trip st with
    | None => (Raise (StorageError "statement failed"), st)
    | Some st' => let '(a, rows) := q (pending st') in (Ok a, with_pending st' rows)
    end.

Module RefreshTokenDAL.

(** The methods the class defines. *)
Definition methods : list string :=
  ["__init__"; "exists_by_user_id"; "delete_by_user_id"; "insert"].

Definition hasattr (name : string) : bool :=
  existsb (String.eqb name) methods.

(** [SELECT user_id FROM token WHERE EXISTS (SELECT user_id FROM token
    WHERE user_id = :user_id)], then [bool(result.all())]. *)
Definition exists_by_user_id (user_id : Z) : Op Store bool :=
  execute (fun rows =>
    let exists_criteria := existsb (fun r => Token.user_id r =? user_id) rows in
    let result := filter (fun _ => exists_criteria) (map Token.user_id rows) in
    (negb (Nat.eqb (List.length result) 0), rows)).

(** [DELETE FROM token WHERE user_id = :user_id] *)
Definition delete_by_user_id (user_id : Z) : Op Store unit :=
  execute (fun rows =>
    (tt, filter (fun r => negb (Token.user_id r =? user_id)) rows)).

(** [INSERT INTO token VALUES (...)] *)
Definition insert (refresh_token : InsertTokenSchema.t) : Op Store unit :=
  execute (fun rows => (tt, (rows ++ [Token.of_schema refresh_token])%list)).

(** The attributes the handlers look up on an instance of the class. *)
Definition instance : DAL Store :=
  mkDAL None None (Some insert) None None.

End RefreshTokenDAL.

(** The natural key of a row. *)
Definition has_key (user_id : Z) (access_token : string) (r : Token.t) : bool :=
  andb (Token.user_id r =? user_id) (String.eqb (Token.access_token r) access_token).

(* ------------------------------------------------------------------ *)
(** * A reference instance of the collaborators *)
(* ------------------------------------------------------------------ *)

(** The handlers are run below against this instance: one known principal,
    an issuer that stamps tokens with the clock, a reversible tagging in
    place of the cipher and a tagging in place of the digest. *)
Module Ref.

(** The characters that [int] strips from both ends of an ASCII string. *)
Definition is_space (c : ascii) : bool :=
  let n := nat_of_ascii c in
  orb (andb (Nat.leb 9 n) (Nat.leb n 13)) (andb (Nat.leb 28 n) (Nat.leb n 32)).

Fixpoint lstrip (cs : list ascii) : list ascii :=
  match cs with
  | c :: cs' => if is_space c then lstrip cs' else cs
  | [] => []
  end.

(** Decimal digits, with single underscores between digits. *)
Fixpoint digits (acc : Z) (after_digit : bool) (cs : list ascii) : option Z :=
  match cs with
  | [] => if after_digit then Some acc else None
  | c :: cs' =>
      let n := nat_of_ascii c in
      if andb (Nat.leb 48 n) (Nat.leb n 57) then
        digits (acc * 10 + Z.of_nat (n - 48)) true cs'
      else if andb (Ascii.eqb c "_"%char) after_digit then digits acc false cs'
      else None
  end.

(** [int(s)] on an ASCII string: optional white space, an optional sign,
    decimal digits. *)
Definition py_int (s : string) : option Z :=
  match rev (lstrip (rev (lstrip (list_ascii_of_string s)))) with
  | c :: cs =>
      if Ascii.eqb c "-"%char then option_map Z.opp (digits 0 false cs)
      else if Ascii.eqb c "+"%char then digits 0 false cs
      else digits 0 false (c :: cs)
  | [] => None
  end.

Definition py_str (n : Z) : string := NilZero.string_of_int (Z.to_int n).

Definition quote : ascii := ascii_of_nat 39.
Definition double_quote : ascii := ascii_of_nat 34.
Definition backslash : ascii := ascii_of_nat 92.

Definition contains (c : ascii) (s : string) : bool :=
  existsb (Ascii.eqb c) (list_ascii_of_string s).

Definition hex_digit (n : nat) : ascii :=
  nth n (list_ascii_of_string "0123456789abcdef") "0"%char.

(** [repr] of one character of a string delimited by [delimiter]. *)
Definition repr_char (delimiter c : ascii) : string :=
  let n := nat_of_ascii c in
  let escaped (x : ascii) := String backslash (String x EmptyString) in
  if orb (Ascii.eqb c backslash) (Ascii.eqb c delimiter) then escaped c
  else if Nat.eqb n 10 then escaped "n"%char
  else if Nat.eqb n 13 then escaped "r"%char
  else if Nat.eqb n 9 then escaped "t"%char
  else if orb (Nat.ltb n 32) (Nat.eqb n 127) then
    String backslash
      (String "x"%char
         (String (hex_digit (Nat.div n 16))
            (String (hex_digit (Nat.modulo n 16)) EmptyString)))
  else String c EmptyString.

(** [repr(s)] on the ASCII strings: single quotes, unless the string has a
    single quote and no double quote. *)
Definition py_repr (s : string) : string :=
  let delimiter :=
    if andb (contains quote s) (negb (contains double_quote s))
    then double_quote else quote in
  String delimiter
    (String.concat EmptyString (map (repr_char delimiter) (list_ascii_of_string s))
     ++ String delimiter EmptyString).

Definition py_int_error (s : string) : string :=
  "invalid literal for int() with base 10: " ++ py_repr s.

Definition encrypt (plain : string) : string := "enc:" ++ plain.

Definition decrypt (cipher : string) : Res string :=
  if String.prefix "enc:" cipher
  then Ok (String.substring 4 (String.length cipher - 4) cipher)
  else Raise DecryptionError.

Definition hmac_sha256 (m : string) : string := "mac:" ++ m.

Definition get_user_from_email (email_key : string) : Op Store (option User.t) :=
  execute (fun rows =>
    (if String.eqb email_key (hmac_sha256 "user@example.com")
     then Some (User.mk 42) else None, rows)).

Definition update_last_login (user_id : Z) (login_ip : string) : Op Store unit :=
  execute (fun rows => (tt, rows)).

Definition authenticate (user : option User.t) (password : string) : Op Store bool :=
  fun st =>
    match user with
    | Some _ => (Ok (String.eqb password "correct horse"), st)
    | None => (Ok false, st)
    end.

(** Lifetimes: ten minutes and seven days. *)
Definition create_new_jwt_token (sub : string) : Op Store CreateTokenSchema.t :=
  fun st =>
    let t := clock st in
    (Ok (CreateTokenSchema.mk
           ("access." ++ sub ++ "." ++ py_str t)
           ("refresh." ++ sub ++ "." ++ py_str t)
           (py_str t)
           (py_str (t + 600))
           (py_str (t + 604800))),
     mkStore (committed st) (pending st) (serves st) (t + 1)).

Definition commit : Op Store unit :=
  fun st =>
    match round_trip st with
    | None => (Raise (StorageError "commit failed"), st)
    | Some st' => (Ok tt, mkStore (pending st') (pending st') (serves st') (clock st'))
    end.

Definition rollback : Op Store unit :=
  fun st => (Ok tt, mkStore (committed st) (committed st) (serves st) (clock st)).

Definition close : Op Store unit :=
  fun st => (Ok tt, mkStore (committed st) (committed st) (serves st) (clock st)).

Definition env : Env := mkEnv encrypt decrypt hmac_sha256 py_int py_int_error py_str.

Definition backend : Backend Store :=
  mkBackend get_user_from_email update_last_login authenticate
            create_new_jwt_token commit rollback close.

(** The signing layer of the reference instance and the tokens it knows:
    a live and an expired one, one without subject, one whose payload
    repeats a keyword of the [TokenUser(...)] call, and three whose [exp] is
    a string or [null]. *)
Definition jws_verify (token : string) : option Payload :=
  if String.eqb token "tok.live" then
    Some [("sub", JStr "42"); ("iat", JInt 1000); ("exp", JInt 1600)]
  else if String.eqb token "tok.old" then
    Some [("sub", JStr "42"); ("iat", JInt 10); ("exp", JInt 610)]
  else if String.eqb token "tok.nosub" then
    Some [("iat", JInt 1000); ("exp", JInt 1600)]
  else if String.eqb token "tok.dup" then
    Some [("sub", JStr "42"); ("access_token", JStr "x")]
  else if String.eqb token "tok.str.old" then
    Some [("sub", JStr "42"); ("exp", JStr "610")]
  else if String.eqb token "tok.str.live" then
    Some [("sub", JStr "42"); ("exp", JStr "9999")]
  else if String.eqb token "tok.null" then
    Some [("sub", JStr "42"); ("exp", JNull)]
  else None.

(** The containers of the reference instance are lists. *)
Definition int_type_error (x : JSON) : string :=
  match x with
  | JNull =>
      "int() argument must be a string, a bytes-like object or a real number, not 'NoneType'"
  | _ =>
      "int() argument must be a string, a bytes-like object or a real number, not 'list'"
  end.

(** ["tok.iat"] is signed and carries [iat: null]; every other token that
    [jws_verify] does not know fails the signature check. *)
Definition early_failure (token : string) : EarlyFailure :=
  if String.eqb token "tok.iat" then IntTypeError (int_type_error JNull)
  else BadToken.

#[global] Instance runtime : Runtime :=
  mkRuntime py_int py_int_error int_type_error early_failure.

Definition claims_valid (claims : Payload) : bool := true.

Definition now : Z := 1200.

(** The row of a login of user 42 at time 10, which issued ["tok.old"]. *)
Definition row_42 : Token.t :=
  Token.mk 42 "tok.old" "enc:refresh.42.10" "mac:refresh.42.10" 10 604810.

(** A second session of the same user. *)
Definition row_42' : Token.t :=
  Token.mk 42 "tok.live" "enc:refresh.42.1000" "mac:refresh.42.1000" 1000 605800.

End Ref.

(* ------------------------------------------------------------------ *)
(** * Vocabulary of the properties *)
(* ------------------------------------------------------------------ *)

(** An exception of [int] that [jwt.decode] does not catch. *)
Definition int_escape (e : Exn) : Prop :=
  (exists m, e = TypeError m) \/ (exists m, e = OverflowError m).

(** The [Authorization] header is well formed and carries the token [t]. *)
Definition bearer_presents (authorization : option string) (t : string) : Prop :=
  lower (fst (get_authorization_scheme_param authorization)) = "bearer"
  /\ snd (get_authorization_scheme_param authorization) = t
  /\ t <> "".

Section StrictOutcomes.

Context {R : Runtime}.

(** What a strict verifier owes on a well-formed credential that carries
    the token [t], when [build] is its [TokenUser(...)] call and [verdict]
    its result: a [JWTError] of the decoding other than the expiry, a token
    whose signature does not verify and a schema validation error give
    [credentials_exception]; a verified signature with a failed expiry
    check, that is an [exp] that [int] reads as an instant before the clock,
    gives [token_expired_exception]. *)
Definition strict_outcomes (jws_verify : string -> option Payload)
                           (claims_valid : Payload -> bool) (now : Z)
                           (t : string) (build : Payload -> Res TokenUser.t)
                           (verdict : Res TokenUser.t) : Prop :=
  let decode := jwt_decode jws_verify claims_valid now true in
  (forall e, decode t = Raise e -> is_JWTError e = true ->
             e <> ExpiredSignatureError ->
             verdict = Raise (HTTPException credentials_exception))
  /\ (jws_verify t = None -> early_failure t = BadToken ->
      verdict = Raise (HTTPException credentials_exception))
  /\ (forall claims, decode t = Ok claims ->
                     build claims = Raise ValidationError ->
                     verdict = Raise (HTTPException credentials_exception))
  /\ (forall claims, jws_verify t = Some claims ->
                     validate_exp now claims = Raise ExpiredSignatureError ->
                     verdict = Raise (HTTPException token_expired_exception))
  /\ (forall claims x exp, jws_verify t = Some claims ->
                           dict_get "exp" claims = Some x ->
                           int_value x = Ok exp -> exp < now ->
                           verdict = Raise (HTTPException token_expired_exception)).

End StrictOutcomes.

(** Re-encoding of a handler's response, leaving exceptions and the world
    untouched. *)
Definition map_response {S} (f : Response -> Response)
                        (out : Res Response * World S) : Res Response * World S :=
  match out with
  | (Ok resp, w) => (Ok (f resp), w)
  | (Raise e, w) => (Raise e, w)
  end.

(** The web encoding of a token-carrying API response: a message and the
    two httpOnly cookies. Responses that carry a message are left alone. *)
Definition cookie_encoding (message : string) (resp : Response) : Response :=
  let with_cookies (a r : string) :=
    set_cookie (set_cookie (JSONResponse message HTTP_200_OK) "access_token" a None)
               "refresh_token" r None in
  match content resp with
  | CreateToken t =>
      with_cookies (CreateTokenSchema.access_token t) (CreateTokenSchema.refresh_token t)
  | TokenPair t =>
      with_cookies (TokenSchema.access_token t) (TokenSchema.refresh_token t)
  | _ => resp
  end.

(** Two outcomes agree on the world they leave and on the classification of
    the result: the same status code, or the same exception. *)
Definition same_transition {S} (o1 o2 : Res Response * World S) : Prop :=
  snd o1 = snd o2 /\
  match fst o1, fst o2 with
  | Ok r1, Ok r2 => status_code r1 = status_code r2
  | Raise e1, Raise e2 => e1 = e2
  | _, _ => False
  end.

(** None of the calls writes to the store or commits. *)
Definition no_mutation (events : list Event) : Prop :=
  forall ev, In ev events -> is_mutation ev = false.


(* ------------------------------------------------------------------ *)
(** * db/crud/crud_roles.py *)
(* ------------------------------------------------------------------ *)

(** [models/roles.py] and [schemas/roles.py] are not part of the sources:
    a row of the [roles] table and the result of [role.dict()] are kept as
    dicts from column or field names to values, whatever the columns are. *)
Module RolesDAL.

(** What a method of the class can raise: the [KeyError] of a [del] on a
    missing key, and a failure of the persistence layer. *)
Inductive Error : Type :=
| KeyError (key : string)
| ExecuteError (msg : string).

Inductive Outcome (A : Type) : Type :=
| Returns (a : A)
| Raises (e : Error).
Arguments Returns {A} a.
Arguments Raises {A} e.

(** The [roles] table as the session sees it, and how many more statements
    the layer serves before it starts to fail ([None]: it does not fail). *)
Record Table : Type := mkTable {
  rows : list Payload;
  serving : option nat
}.

(** [await self.session.execute(q)] *)
Definition execute {A} (q : list Payload -> A * list Payload) (t : Table)
  : Outcome A * Table :=
  match serving t with
  | Some O => (Raises (ExecuteError "statement failed"), t)
  | Some (S n) => let '(a, rs) := q (rows t) in (Returns a, mkTable rs (Some n))
  | None => let '(a, rs) := q (rows t) in (Returns a, mkTable rs None)
  end.

(** [del data[k]]: [None] is the [KeyError] of a missing key. *)
Definition del (k : string) (data : Payload) : option Payload :=
  if dict_has k data
  then Some (filter (fun kv => negb (String.eqb k (fst kv))) data)
  else None.

(** [row[k] = v] *)
Fixpoint dict_set (k : string) (v : JSON) (row : Payload) : Payload :=
  match row with
  | [] => [(k, v)]
  | (k', v') :: row' =>
      if String.eqb k k' then (k, v) :: row' else (k', v') :: dict_set k v row'
  end.

(** [SET col = value, ...] for the keyword arguments of [values( **data)]. *)
Definition assign (data : Payload) (row : Payload) : Payload :=
  fold_right (fun kv r => dict_set (fst kv) (snd kv) r) row data.

(** [Roles.id == role_id] *)
Definition has_id (role_id : Z) (row : Payload) : bool :=
  match dict_get "id" row with
  | Some (JInt n) => n =? role_id
  | _ => false
  end.

(** [select(Roles)], then [result.scalars().all()] *)
Definition list_ : Table -> Outcome (list Payload) * Table :=
  execute (fun rs => (rs, rs)).

(** [select(Roles).where(Roles.id == role_id)], then
    [result.scalars().first()] *)
Definition get (role_id : Z) : Table -> Outcome (option Payload) * Table :=
  execute (fun rs => (find (has_id role_id) rs, rs)).

(** [update(Roles).where(Roles.id == role_id).values( **data)] after
    [data = role.dict()] and [del data['permissions']] *)
Definition update (role_id : Z) (role : Payload) (t : Table)
  : Outcome unit * Table :=
  match del "permissions" role with
  | None => (Raises (KeyError "permissions"), t)
  | Some data =>
      execute (fun rs =>
        (tt, map (fun row => if has_id role_id row then assign data row else row) rs))
        t
  end.

(** [delete(Roles).where(Roles.id == role_id)] *)
Definition delete (role_id : Z) : Table -> Outcome unit * Table :=
  execute (fun rs => (tt, filter (fun row => negb (has_id role_id row)) rs)).

Section Insert.

(** The row the database stores for the values of an [INSERT]: the values
    together with what the table generates (its key, its defaults). *)
Variable stored : list Payload -> Payload -> Payload.

(** [insert(Roles).values( **data)] after [data = role.dict()] and
    [del data['permissions']]; the cursor result it returns is not
    inspected. *)
Definition insert (role : Payload) (t : Table) : Outcome unit * Table :=
  match del "permissions" role with
  | None => (Raises (KeyError "permissions"), t)
  | Some data =>
      execute (fun rs => (tt, (rs ++ [stored rs data])%list)) t
  end.

End Insert.

End RolesDAL.

(* ------------------------------------------------------------------ *)
(** * The transaction discipline of a request *)
(* ------------------------------------------------------------------ *)

(** Where the session of a request stands: still open for statements,
    committed, rolled back, or closed. *)
Inductive TxState : Type :=
| TxOpen
| TxCommitted
| TxRolledBack
| TxClosed.

(** The calls allowed in each state; [None] is a call out of order: a
    statement after the commit or the rollback, a second commit, anything
    after the close. *)
Definition tx_step (st : TxState) (ev : Event) : option TxState :=
  match st, ev with
  | TxOpen, EvCommit => Some TxCommitted
  | TxOpen, EvRollback => Some TxRolledBack
  | TxOpen, EvClose => Some TxClosed
  | TxOpen, _ => Some TxOpen
  | TxCommitted, EvRollback => Some TxRolledBack
  | TxCommitted, EvClose => Some TxClosed
  | TxCommitted, _ => None
  | TxRolledBack, EvClose => Some TxClosed
  | TxRolledBack, _ => None
  | TxClosed, _ => None
  end.

Fixpoint tx_run (st : TxState) (events : list Event) : option TxState :=
  match events with
  | [] => Some st
  | ev :: events' =>
      match tx_step st ev with
      | Some st' => tx_run st' events'
      | None => None
      end
  end.

(** The calls of one request, started on an empty trace. *)
Definition calls {S} (run : M S Response) (s : S) : list Event :=
  snd (snd (run (s, []))).

Definition answer {S} (run : M S Response) (s : S) : Res Response :=
  fst (run (s, [])).

(** A rollback and a close that do not raise. *)
Definition session_ends_quietly {S} (B : Backend S) : Prop :=
  (forall s, fst (rollback B s) = Ok tt) /\ (forall s, fst (close B s) = Ok tt).

(** A string without a space. *)
Fixpoint no_space (s : string) : bool :=
  match s with
  | EmptyString => true
  | String c s' => andb (negb (Ascii.eqb c " "%char)) (no_space s')
  end.

(* ------------------------------------------------------------------ *)
(** * Properties of the verifiers *)
(* ------------------------------------------------------------------ *)

Section VerifierFacts.

Context {R : Runtime}.
Variable jws_verify : string -> option Payload.
Variable claims_valid : Payload -> bool.
Variable now : Z.

Local Abbreviation decode := (jwt_decode jws_verify claims_valid now).

(** [int] raises a [ValueError], a [TypeError] or an [OverflowError]. *)
Lemma int_value_raises (x : JSON) (e : Exn) :
  int_value x = Raise e ->
  (exists m, e = ValueError m) \/ int_escape e.
Proof.
  unfold int_escape.
  destruct x as [| b | n | s | | [m e0 | neg |]]; simpl;
    try discriminate; try (intros H; inversion H; eauto; fail).
  destruct (int_of_str s); [discriminate|].
  intros H; inversion H; eauto.
Qed.

(** The expiry check raises an expired signature, a claims error, or what
    [int] raises besides its [ValueError]. *)
Lemma validate_exp_raises (claims : Payload) (e : Exn) :
  validate_exp now claims = Raise e ->
  e = ExpiredSignatureError \/ e = JWTClaimsError \/ int_escape e.
Proof.
  unfold validate_exp.
  destruct (dict_get "exp" claims) as [x|]; [|discriminate].
  destruct (int_value x) as [n|e'] eqn:Hi.
  - destruct (n <? now); intros H; inversion H; auto.
  - destruct (int_value_raises _ _ Hi) as [[m ->]|[[m ->]|[m ->]]];
      intros H; inversion H; subst; unfold int_escape; eauto.
Qed.

(** An [exp] that [int] reads as an instant before the clock is an expired
    signature, whatever its JSON type. *)
Lemma validate_exp_expired (claims : Payload) (x : JSON) (exp : Z) :
  dict_get "exp" claims = Some x -> int_value x = Ok exp -> exp < now ->
  validate_exp now claims = Raise ExpiredSignatureError.
Proof.
  intros Hx Hi Hlt. unfold validate_exp. rewrite Hx, Hi.
  apply Z.ltb_lt in Hlt. rewrite Hlt. reflexivity.
Qed.

(** [jwt.decode] raises a [JWTError] (or a subclass), or lets a [TypeError]
    or an [OverflowError] of [int] through. *)
Lemma jwt_decode_raises (verify_exp : bool) (t : string) (e : Exn) :
  decode verify_exp t = Raise e -> is_JWTError e = true \/ int_escape e.
Proof.
  unfold jwt_decode, int_escape.
  destruct (jws_verify t) as [claims|].
  - destruct verify_exp; simpl.
    + destruct (validate_exp now claims) as [[]|e'] eqn:Hexp; simpl.
      * destruct (claims_valid claims); intros H; inversion H; auto.
      * intros H; inversion H; subst.
        destruct (validate_exp_raises _ _ Hexp) as [->|[->|He]]; auto.
    + destruct (claims_valid claims); intros H; inversion H; auto.
  - destruct (early_failure t); simpl; intros H; inversion H; eauto.
Qed.

(** With the expiry check disabled, [jwt.decode] never reports an expired
    signature. *)
Lemma jwt_decode_lenient_not_expired (t : string) :
  decode false t <> Raise ExpiredSignatureError.
Proof.
  unfold jwt_decode.
  destruct (jws_verify t) as [claims|].
  - simpl. destruct (claims_valid claims); discriminate.
  - destruct (early_failure t); discriminate.
Qed.

(** With the expiry check disabled, the outcome of [jwt.decode] does not
    depend on the [exp] claim or on the clock. *)
Lemma jwt_decode_lenient (t : string) (claims : Payload) :
  jws_verify t = Some claims -> claims_valid claims = true ->
  decode false t = Ok claims.
Proof.
  intros Hv Hc. unfold jwt_decode. rewrite Hv. simpl. now rewrite Hc.
Qed.

Lemma jwt_decode_strict_expired (t : string) (claims : Payload) :
  jws_verify t = Some claims ->
  validate_exp now claims = Raise ExpiredSignatureError ->
  decode true t = Raise ExpiredSignatureError.
Proof.
  intros Hv He. unfold jwt_decode. rewrite Hv, He. reflexivity.
Qed.

(** [TokenUser(...)] raises a validation error or, on a keyword collision,
    a type error. *)
Lemma TokenUser_new_raises (p : Payload) (a : string) (r : option string)
      (g : bool) (e : Exn) :
  TokenUser_new p a r g = Raise e ->
  e = ValidationError \/ exists m, e = TypeError m.
Proof.
  unfold TokenUser_new, TokenUser_validate.
  destruct (dict_has "access_token" p).
  { intros H; inversion H; eauto. }
  destruct (g && dict_has "refresh_token" p)%bool.
  { intros H; inversion H; eauto. }
  destruct (dict_get "sub" p) as [[| | | s | |]|]; try (intros H; inversion H; auto; fail).
  destruct g; [discriminate|].
  destruct (dict_get "refresh_token" p) as [[| | | | |]|];
    intros H; inversion H; auto.
Qed.

(** The verdict of the shared statement, by the outcome of its two steps. *)
Lemma verifier_body_decode_error (d : Res Payload) build (e : Exn) :
  d = Raise e -> is_JWTError e = true -> e <> ExpiredSignatureError ->
  verifier_body d build = Raise (HTTPException credentials_exception).
Proof.
  intros -> Hj Hne. unfold verifier_body, except_jwt. simpl.
  destruct e; try discriminate; try reflexivity. congruence.
Qed.

(** What [int] lets through passes both [except] clauses. *)
Lemma verifier_body_int_escape (d : Res Payload) build (e : Exn) :
  d = Raise e -> int_escape e -> verifier_body d build = Raise e.
Proof.
  intros -> [[m ->]|[m ->]]; reflexivity.
Qed.

Lemma verifier_body_expired (d : Res Payload) build :
  d = Raise ExpiredSignatureError ->
  verifier_body d build = Raise (HTTPException token_expired_exception).
Proof. intros ->. reflexivity. Qed.

Lemma verifier_body_ok (d : Res Payload) build (claims : Payload) (tu : TokenUser.t) :
  d = Ok claims -> build claims = Ok tu -> verifier_body d build = Ok tu.
Proof.
  intros -> Hb. unfold verifier_body. simpl. rewrite Hb. reflexivity.
Qed.

Lemma verifier_body_invalid (d : Res Payload) build (claims : Payload) :
  d = Ok claims -> build claims = Raise ValidationError ->
  verifier_body d build = Raise (HTTPException credentials_exception).
Proof.
  intros -> Hb. unfold verifier_body. simpl. rewrite Hb. reflexivity.
Qed.

(** No verdict of the lenient statement is [token_expired_exception]. *)
Lemma verifier_body_lenient_not_expired (t : string) build :
  (forall p e, build p = Raise e -> e = ValidationError \/ exists m, e = TypeError m) ->
  verifier_body (decode false t) build
    <> Raise (HTTPException token_expired_exception).
Proof.
  intros Hb. unfold verifier_body.
  destruct (decode false t) as [p|e] eqn:Hd; simpl.
  - destruct (build p) as [tu|e] eqn:Hp; simpl; [discriminate|].
    destruct (Hb _ _ Hp) as [->|[m ->]]; simpl; discriminate.
  - destruct (jwt_decode_raises _ _ _ Hd) as [Hj|[[m ->]|[m ->]]];
      [|discriminate|discriminate].
    destruct e; try discriminate.
    exfalso. exact (jwt_decode_lenient_not_expired t Hd).
Qed.

(** A failure of the lenient statement is [credentials_exception], or a
    [TypeError] (of the keyword collision or of [int]) or an
    [OverflowError] (of [int]) that no clause catches. *)
Lemma verifier_body_lenient_failures (t : string) build (e : Exn) :
  (forall p e, build p = Raise e -> e = ValidationError \/ exists m, e = TypeError m) ->
  verifier_body (decode false t) build = Raise e ->
  e = HTTPException credentials_exception \/ int_escape e.
Proof.
  intros Hb. unfold verifier_body, int_escape.
  destruct (decode false t) as [p|e'] eqn:Hd; simpl.
  - destruct (build p) as [tu|e'] eqn:Hp; simpl; [discriminate|].
    destruct (Hb _ _ Hp) as [->|[m ->]]; simpl; intros H; inversion H; eauto.
  - destruct (jwt_decode_raises _ _ _ Hd) as [Hj|[[m ->]|[m ->]]];
      [|intros H; inversion H; eauto|intros H; inversion H; eauto].
    destruct e'; try discriminate; simpl; intros H; inversion H; auto.
    exfalso. exact (jwt_decode_lenient_not_expired t Hd).
Qed.

(** The two verifiers of the refresh endpoints never raise
    [token_expired_exception]: their [except jwt.ExpiredSignatureError]
    clause is dead. *)
Lemma lenient_verifiers_never_expired :
  (forall token, AuthorizeTokenRefresh jws_verify claims_valid now token
                 <> Raise (HTTPException token_expired_exception))
  /\ (forall a r, AuthorizeRefreshCookieUser jws_verify claims_valid now a r
                  <> Raise (HTTPException token_expired_exception)).
Proof.
  split.
  - intros token. unfold AuthorizeTokenRefresh.
    destruct (_ || _)%bool; [discriminate|].
    apply verifier_body_lenient_not_expired.
    intros p e. apply TokenUser_new_raises.
  - intros a r. unfold AuthorizeRefreshCookieUser.
    destruct (_ || _)%bool; [discriminate|].
    destruct a as [a|]; [|discriminate].
    apply verifier_body_lenient_not_expired.
    intros p e. apply TokenUser_new_raises.
Qed.

(** Every failure of the two lenient verifiers is [credentials_exception],
    the keyword collision and the escapes of [int] apart. *)
Lemma lenient_verifiers_failures (e : Exn) :
  (forall token, AuthorizeTokenRefresh jws_verify claims_valid now token = Raise e ->
                 e = HTTPException credentials_exception \/ int_escape e)
  /\ (forall a r, AuthorizeRefreshCookieUser jws_verify claims_valid now a r = Raise e ->
                  e = HTTPException credentials_exception \/ int_escape e).
Proof.
  split.
  - intros token. unfold AuthorizeTokenRefresh.
    destruct (_ || _)%bool; [intros H; inversion H; auto|].
    apply verifier_body_lenient_failures.
    intros p e'. apply TokenUser_new_raises.
  - intros a r. unfold AuthorizeRefreshCookieUser.
    destruct (_ || _)%bool; [intros H; inversion H; auto|].
    destruct a as [a|]; [|intros H; inversion H; auto].
    apply verifier_body_lenient_failures.
    intros p e'. apply TokenUser_new_raises.
Qed.

End VerifierFacts.

(** ** The lenient and the strict verdicts *)

Section LenientVerdict.

Context {R : Runtime}.

(** C2. A token that passes the verification of [jwt.decode] and whose
    claims build a [TokenUser] is verified by both lenient verifiers (the
    refresh request body and the refresh cookie pair), with the subject of
    the token's [sub] claim, whatever its [exp] claim and the clock are;
    when the claims fail the schema validation both raise
    [credentials_exception]. When the expiry has passed, the strict cookie
    verifier rejects the same pair as expired. *)
Theorem lenient_verifiers_accept_expired_token
    (jws_verify : string -> option Payload) (claims_valid : Payload -> bool)
    (now : Z) (a r : string) (claims : Payload) :
  a <> "" -> r <> "" ->
  jws_verify a = Some claims ->
  claims_valid claims = true ->
  let body := AuthorizeTokenRefresh jws_verify claims_valid now
                (TokenRefreshRequestSchema.mk a r) in
  let cookie := AuthorizeRefreshCookieUser jws_verify claims_valid now
                  (Some a) (Some r) in
  (forall tu, TokenUser_new claims a (Some r) true = Ok tu ->
     body = Ok tu /\ cookie = Ok tu
     /\ dict_get "sub" claims = Some (JStr (TokenUser.sub tu))
     /\ TokenUser.access_token tu = a
     /\ TokenUser.refresh_token tu = Some r)
  /\ (TokenUser_new claims a (Some r) true = Raise ValidationError ->
      body = Raise (HTTPException credentials_exception)
      /\ cookie = Raise (HTTPException credentials_exception))
  /\ (validate_exp now claims = Raise ExpiredSignatureError ->
      AuthorizeCookieUser jws_verify claims_valid now (Some a) (Some r)
      = Raise (HTTPException token_expired_exception)).
Proof.
  intros Ha Hr Hv Hc body cookie.
  assert (Hd : jwt_decode jws_verify claims_valid now false a = Ok claims)
    by (apply jwt_decode_lenient; assumption).
  assert (Hea : String.eqb a "" = false) by (apply String.eqb_neq; exact Ha).
  assert (Her : String.eqb r "" = false) by (apply String.eqb_neq; exact Hr).
  assert (Hbody : body = verifier_body (Ok claims)
                           (fun p => TokenUser_new p a (Some r) true)).
  { subst body. unfold AuthorizeTokenRefresh. simpl. rewrite Hea, Her. simpl.
    rewrite Hd. reflexivity. }
  assert (Hcookie : cookie = verifier_body (Ok claims)
                               (fun p => TokenUser_new p a (Some r) true)).
  { subst cookie. unfold AuthorizeRefreshCookieUser. simpl. rewrite Hea, Her. simpl.
    rewrite Hd. reflexivity. }
  rewrite Hbody, Hcookie. split; [|split].
  - intros tu Htu.
    rewrite (verifier_body_ok (Ok claims) _ claims tu eq_refl Htu).
    repeat split; try reflexivity.
    + revert Htu. unfold TokenUser_new, TokenUser_validate.
      destruct (dict_has "access_token" claims); [discriminate|].
      destruct (true && dict_has "refresh_token" claims)%bool; [discriminate|].
      destruct (dict_get "sub" claims) as [[| | | s | |]|]; try discriminate.
      intros H; inversion H; reflexivity.
    + revert Htu. unfold TokenUser_new, TokenUser_validate.
      destruct (dict_has "access_token" claims); [discriminate|].
      destruct (true && dict_has "refresh_token" claims)%bool; [discriminate|].
      destruct (dict_get "sub" claims) as [[| | | s | |]|]; try discriminate.
      intros H; inversion H; reflexivity.
    + revert Htu. unfold TokenUser_new, TokenUser_validate.
      destruct (dict_has "access_token" claims); [discriminate|].
      destruct (true && dict_has "refresh_token" claims)%bool; [discriminate|].
      destruct (dict_get "sub" claims) as [[| | | s | |]|]; try discriminate.
      intros H; inversion H; reflexivity.
  - intros Hbad.
    rewrite (verifier_body_invalid (Ok claims) _ claims eq_refl Hbad).
    split; reflexivity.
  - intros Hexp. unfold AuthorizeCookieUser. simpl. rewrite Hea, Her. simpl.
    apply verifier_body_expired.
    exact (jwt_decode_strict_expired _ _ _ _ claims Hv Hexp).
Qed.

End LenientVerdict.

(** The token ["tok.old"] expired 590 seconds before the clock of the
    reference instance: the strict cookie verifier reports it expired, the
    lenient verifiers accept it with subject ["42"]. *)
Lemma lenient_verifiers_accept_expired_token_witness :
  AuthorizeCookieUser Ref.jws_verify Ref.claims_valid Ref.now
    (Some "tok.old") (Some "refresh.42.10")
  = Raise (HTTPException token_expired_exception)
  /\ AuthorizeTokenRefresh Ref.jws_verify Ref.claims_valid Ref.now
       (TokenRefreshRequestSchema.mk "tok.old" "refresh.42.10")
     = Ok (TokenUser.mk "42" "tok.old" (Some "refresh.42.10"))
  /\ AuthorizeRefreshCookieUser Ref.jws_verify Ref.claims_valid Ref.now
       (Some "tok.nosub") (Some "refresh.42.10")
     = Raise (HTTPException credentials_exception).
Proof.
  assert (Ha : "tok.old" <> "") by discriminate.
  assert (Hb : "tok.nosub" <> "") by discriminate.
  assert (Hr : "refresh.42.10" <> "") by discriminate.
  split.
  { exact (proj2 (proj2 (lenient_verifiers_accept_expired_token
             Ref.jws_verify Ref.claims_valid Ref.now "tok.old" "refresh.42.10"
             _ Ha Hr eq_refl eq_refl)) eq_refl). }
  split.
  - exact (proj1 (proj1 (lenient_verifiers_accept_expired_token
             Ref.jws_verify Ref.claims_valid Ref.now "tok.old" "refresh.42.10"
             _ Ha Hr eq_refl eq_refl) _ eq_refl)).
  - exact (proj2 (proj1 (proj2 (lenient_verifiers_accept_expired_token
             Ref.jws_verify Ref.claims_valid Ref.now "tok.nosub" "refresh.42.10"
             _ Hb Hr eq_refl eq_refl)) eq_refl)).
Defined.

Section StrictVerdict.

Context {R : Runtime}.

(** The shared statement of the verifiers meets [strict_outcomes]. *)
Lemma verifier_body_strict (jws_verify : string -> option Payload)
      (claims_valid : Payload -> bool) (now : Z) (t : string)
      (build : Payload -> Res TokenUser.t) :
  strict_outcomes jws_verify claims_valid now t build
    (verifier_body (jwt_decode jws_verify claims_valid now true t) build).
Proof.
  unfold strict_outcomes.
  assert (Hexp : forall claims,
            jws_verify t = Some claims ->
            validate_exp now claims = Raise ExpiredSignatureError ->
            verifier_body (jwt_decode jws_verify claims_valid now true t) build
            = Raise (HTTPException token_expired_exception)).
  { intros claims Hv He. apply verifier_body_expired.
    exact (jwt_decode_strict_expired _ _ _ _ claims Hv He). }
  split; [|split; [|split; [|split]]].
  - intros e He Hj Hn. exact (verifier_body_decode_error _ _ e He Hj Hn).
  - intros Hnone Hbad.
    apply (verifier_body_decode_error _ _ JWTError); [|reflexivity|discriminate].
    unfold jwt_decode. rewrite Hnone, Hbad. reflexivity.
  - intros claims Hd Hbad. exact (verifier_body_invalid _ _ claims Hd Hbad).
  - exact Hexp.
  - intros claims x exp Hv Hx Hi Hlt. apply (Hexp claims Hv).
    exact (validate_exp_expired now claims x exp Hx Hi Hlt).
Qed.

(** C3. The strict verifiers (bearer header, strict cookie pair): a missing
    or malformed credential raises [credentials_exception]; so does a token
    whose signature does not verify, one that [jwt.decode] rejects with a
    [JWTError] other than the expiry, and one whose claims fail the schema
    validation; a token whose signature verifies and whose expiry check
    fails ([int(claims['exp'])] lies before the clock) raises
    [token_expired_exception], which is a different error. *)
Theorem strict_verifier_outcomes
    (jws_verify : string -> option Payload) (claims_valid : Payload -> bool)
    (now : Z) :
  let bearer := AuthorizeTokenUser jws_verify claims_valid now in
  let cookie := AuthorizeCookieUser jws_verify claims_valid now in
  (forall authorization,
      lower (fst (get_authorization_scheme_param authorization)) <> "bearer"
      \/ snd (get_authorization_scheme_param authorization) = "" ->
      bearer authorization = Raise (HTTPException credentials_exception))
  /\ (forall a r,
        falsy a = true \/ falsy r = true ->
        cookie a r = Raise (HTTPException credentials_exception))
  /\ (forall authorization t,
        bearer_presents authorization t ->
        strict_outcomes jws_verify claims_valid now t
          (fun claims => TokenUser_new claims t None false)
          (bearer authorization))
  /\ (forall t r,
        t <> "" -> falsy r = false ->
        strict_outcomes jws_verify claims_valid now t
          (fun claims => TokenUser_new claims t r true)
          (cookie (Some t) r))
  /\ HTTPException token_expired_exception <> HTTPException credentials_exception.
Proof.
  intros bearer cookie.
  split; [|split; [|split; [|split]]].
  - intros authorization H. subst bearer. unfold AuthorizeTokenUser.
    destruct (get_authorization_scheme_param authorization) as [scheme token].
    simpl in H.
    destruct (String.eqb_spec (lower scheme) "bearer") as [Heq|Hne]; simpl.
    + destruct H as [H|H]; [contradiction|]. subst token. reflexivity.
    + reflexivity.
  - intros a r H. subst cookie. unfold AuthorizeCookieUser.
    destruct H as [H|H]; rewrite H; [reflexivity|].
    rewrite Bool.orb_true_r. reflexivity.
  - intros authorization t [Hs [Ht Hne]].
    assert (Hb : bearer authorization
                 = verifier_body (jwt_decode jws_verify claims_valid now true t)
                     (fun p => TokenUser_new p t None false)).
    { subst bearer. unfold AuthorizeTokenUser.
      destruct (get_authorization_scheme_param authorization) as [scheme token].
      simpl in Hs, Ht. subst token. rewrite Hs. simpl.
      apply String.eqb_neq in Hne. rewrite Hne. reflexivity. }
    rewrite Hb. apply verifier_body_strict.
  - intros t r Hne Hr.
    assert (Hc : cookie (Some t) r
                 = verifier_body (jwt_decode jws_verify claims_valid now true t)
                     (fun p => TokenUser_new p t r true)).
    { subst cookie. unfold AuthorizeCookieUser. rewrite Hr.
      simpl. apply String.eqb_neq in Hne. rewrite Hne. reflexivity. }
    rewrite Hc. apply verifier_body_strict.
  - discriminate.
Qed.

End StrictVerdict.

(** On the reference instance: a header without the [Bearer] scheme, a lone
    access cookie, a token with a forged signature, a token without subject,
    the expired token ["tok.old"], and the token ["tok.str.old"] whose [exp]
    is the string ["610"]. *)
Lemma strict_verifier_outcomes_witness :
  AuthorizeTokenUser Ref.jws_verify Ref.claims_valid Ref.now (Some "Basic tok.live")
  = Raise (HTTPException credentials_exception)
  /\ AuthorizeCookieUser Ref.jws_verify Ref.claims_valid Ref.now (Some "tok.live") None
     = Raise (HTTPException credentials_exception)
  /\ AuthorizeTokenUser Ref.jws_verify Ref.claims_valid Ref.now (Some "Bearer forged")
     = Raise (HTTPException credentials_exception)
  /\ AuthorizeTokenUser Ref.jws_verify Ref.claims_valid Ref.now (Some "bearer tok.nosub")
     = Raise (HTTPException credentials_exception)
  /\ AuthorizeCookieUser Ref.jws_verify Ref.claims_valid Ref.now
       (Some "tok.old") (Some "refresh.42.10")
     = Raise (HTTPException token_expired_exception)
  /\ AuthorizeTokenUser Ref.jws_verify Ref.claims_valid Ref.now
       (Some "Bearer tok.str.old")
     = Raise (HTTPException token_expired_exception).
Proof.
  pose proof (strict_verifier_outcomes Ref.jws_verify Ref.claims_valid Ref.now)
    as [H1 [H2 [H3 [H4 _]]]].
  split; [apply H1; left; discriminate|].
  split; [apply H2; right; reflexivity|].
  split.
  { assert (P : bearer_presents (Some "Bearer forged") "forged")
      by (repeat split; discriminate).
    exact (proj1 (proj2 (H3 _ _ P)) eq_refl eq_refl). }
  split.
  { assert (P : bearer_presents (Some "bearer tok.nosub") "tok.nosub")
      by (repeat split; discriminate).
    exact (proj1 (proj2 (proj2 (H3 _ _ P))) _ eq_refl eq_refl). }
  split.
  { assert (Hne : "tok.old" <> "") by discriminate.
    exact (proj1 (proj2 (proj2 (proj2 (H4 "tok.old" (Some "refresh.42.10")
                                          Hne eq_refl))))
                 _ eq_refl eq_refl). }
  assert (P : bearer_presents (Some "Bearer tok.str.old") "tok.str.old")
    by (repeat split; discriminate).
  refine (proj2 (proj2 (proj2 (proj2 (H3 _ _ P)))) _ (JStr "610") 610
                eq_refl eq_refl eq_refl _).
  reflexivity.
Defined.

(** C9, at the input where it fails. The signed payload of ["tok.dup"]
    carries an [access_token] claim of its own: [TokenUser( **payload,
    access_token=...)] raises [TypeError], which neither lenient verifier
    catches, so the failure is not [credentials_exception]. That the
    verifiers never raise [token_expired_exception] is
    [lenient_verifiers_never_expired]. *)
Theorem lenient_verifiers_type_error_escapes :
  AuthorizeTokenRefresh Ref.jws_verify Ref.claims_valid Ref.now
    (TokenRefreshRequestSchema.mk "tok.dup" "refresh.42.10")
  = Raise (TypeError "got multiple values for keyword argument 'access_token'")
  /\ AuthorizeRefreshCookieUser Ref.jws_verify Ref.claims_valid Ref.now
       (Some "tok.dup") (Some "refresh.42.10")
     = Raise (TypeError "got multiple values for keyword argument 'access_token'").
Proof. split; reflexivity. Qed.

(* ------------------------------------------------------------------ *)
(** * Properties of the handlers *)
(* ------------------------------------------------------------------ *)

Local Open Scope list_scope.

(** ** The data access class as it is in [crud_token.py] *)

(** C4, on the class as the sources have it. [RefreshTokenDAL] defines
    [exists_by_user_id], [delete_by_user_id] and [insert] and none of
    [exists], [get], [update], [delete]: the lookups of the handlers raise
    [AttributeError]. A refresh ends in that error before anything else
    happens; a logout catches it, rolls back and answers 404 with the row
    still in place; the deletion the class does have is keyed by the user
    alone and removes every session of the user. *)
Theorem refresh_token_dal_lacks_natural_key_operations :
  map RefreshTokenDAL.hasattr
      ["exists"; "get"; "update"; "delete"; "insert";
       "exists_by_user_id"; "delete_by_user_id"]
  = [false; false; false; false; true; true; true]
  /\ (forall (B : Backend Store) (E : Env) token w,
        api_token_refresh RefreshTokenDAL.instance B E token w
        = (Raise (AttributeError "'RefreshTokenDAL' object has no attribute 'get'"), w)
        /\ web_token_refresh RefreshTokenDAL.instance B E token w
           = (Raise (AttributeError "'RefreshTokenDAL' object has no attribute 'get'"), w))
  /\ (let st := mkStore [Ref.row_42] [Ref.row_42] None 1200 in
      let token := TokenUser.mk "42" "tok.old" None in
      api_logout RefreshTokenDAL.instance Ref.backend Ref.env token (st, [])
      = (Ok (JSONResponse "Invalid Refresh Token" HTTP_404_NOT_FOUND),
         (st, [EvRollback; EvClose]))
      /\ web_logout RefreshTokenDAL.instance Ref.backend Ref.env token (st, [])
         = (Ok (JSONResponse "Token Expired fail" HTTP_404_NOT_FOUND),
            (st, [EvRollback; EvClose])))
  /\ (let st := mkStore [Ref.row_42; Ref.row_42'] [Ref.row_42; Ref.row_42'] None 1200 in
      RefreshTokenDAL.exists_by_user_id 42 st = (Ok true, st)
      /\ RefreshTokenDAL.delete_by_user_id 42 st
         = (Ok tt, mkStore [Ref.row_42; Ref.row_42'] [] None 1200)).
Proof.
  split; [reflexivity|]. split; [|split].
  - intros B E token w. split; reflexivity.
  - split; reflexivity.
  - split; reflexivity.
Qed.

(** ** Storage failures *)

Section Failures.

Variable S : Type.
Variable D : DAL S.
Variable B : Backend S.
Variable E : Env.

(** A [try] whose body raises, whose only clause is [except Exception] with
    a rollback and a fixed answer, and whose [finally] closes the session:
    the rollback comes first, then the close, then the answer. *)
Lemma try_rollback_answer (body : M S unit) (message : string) (code : Z)
      orelse (e : Exn) (w : World S) (s1 s2 s3 : S) (tr1 : list Event) :
  body w = (Raise e, (s1, tr1)) ->
  rollback B s1 = (Ok tt, s2) ->
  close B s2 = (Ok tt, s3) ->
  try_stmt body
           (fun _ => Some (session_rollback S B ;;; ret (JSONResponse message code)))
           orelse
           (session_close S B) w
  = (Ok (Some (JSONResponse message code)), (s3, tr1 ++ [EvRollback; EvClose])).
Proof.
  intros Hb Hr Hc.
  unfold try_stmt, session_rollback, session_close, bind, perform, ret.
  rewrite Hb. simpl. rewrite Hr. simpl. rewrite Hc.
  rewrite <- app_assoc. reflexivity.
Qed.

(** X7. When a write of a login raises (the insert, the last-login update
    or the commit), both login handlers roll back, close the session and
    answer 500. *)
Lemma login_write_failure (client_host : string)
      (login_info : LoginRequestSchema.t) (user : User.t)
      (token : CreateTokenSchema.t) (iat exp : Z)
      (s s1 s2 s3 s4 s5 s6 : S) (tr tr4 : list Event) (e : Exn) :
  let email_key := hmac_sha256 E (LoginRequestSchema.email login_info) in
  let password := LoginRequestSchema.password login_info in
  let record :=
    InsertTokenSchema.mk
      (User.id user)
      (CreateTokenSchema.access_token token)
      (encrypt E (CreateTokenSchema.refresh_token token))
      (hmac_sha256 E (CreateTokenSchema.refresh_token token))
      (fromtimestamp iat) (fromtimestamp exp) in
  let tr3 := tr ++ [EvGetUserFromEmail email_key;
                    EvAuthenticate (Some user) password;
                    EvCreateNewJwtToken (py_str E (User.id user))] in
  get_user_from_email B email_key s = (Ok (Some user), s1) ->
  authenticate B (Some user) password s1 = (Ok true, s2) ->
  create_new_jwt_token B (py_str E (User.id user)) s2 = (Ok token, s3) ->
  py_int E (CreateTokenSchema.iat token) = Some iat ->
  py_int E (CreateTokenSchema.refresh_token_expires_in token) = Some exp ->
  (insert <- getattr "insert" (dal_insert D) ;;
   perform (EvInsert record) (insert record) ;;;
   perform (EvUpdateLastLogin (User.id user) client_host)
           (update_last_login B (User.id user) client_host) ;;;
   session_commit S B) (s3, tr3) = (Raise e, (s4, tr4)) ->
  rollback B s4 = (Ok tt, s5) ->
  close B s5 = (Ok tt, s6) ->
  let out := (Ok (JSONResponse "Failed to select/insert data"
                               HTTP_500_INTERNAL_SERVER_ERROR),
              (s6, tr4 ++ [EvRollback; EvClose])) in
  api_login D B E client_host login_info (s, tr) = out
  /\ web_login D B E client_host login_info (s, tr) = out.
Proof.
  intros email_key password record tr3 Hu Ha Hc Hi He Hbody Hrb Hcl out.
  assert (Hmk : make_insert_schema S E (User.id user) token (s3, tr3)
                = (Ok record, (s3, tr3))).
  { unfold make_insert_schema, bind, int_, ret. rewrite Hi, He. reflexivity. }
  split.
  - unfold api_login. fold email_key. fold password.
    unfold bind at 1. unfold perform at 1. simpl fst. simpl snd. rewrite Hu.
    unfold bind at 1. unfold perform at 1. simpl fst. simpl snd. rewrite Ha.
    change (negb true) with false. cbv beta iota.
    unfold bind at 1. unfold user_id_of. unfold ret at 1. cbv beta iota.
    unfold bind at 1. unfold perform at 1. simpl fst. simpl snd. rewrite Hc.
    repeat rewrite <- app_assoc. simpl app. fold tr3.
    unfold bind at 1. rewrite Hmk.
    unfold bind at 1.
    rewrite (try_rollback_answer _ _ _ None e _ _ _ _ _ Hbody Hrb Hcl).
    reflexivity.
  - unfold web_login. fold email_key. fold password.
    unfold bind at 1. unfold perform at 1. simpl fst. simpl snd. rewrite Hu.
    unfold bind at 1. unfold perform at 1. simpl fst. simpl snd. rewrite Ha.
    change (negb true) with false. cbv beta iota.
    unfold bind at 1. unfold user_id_of. unfold ret at 1. cbv beta iota.
    unfold bind at 1. unfold perform at 1. simpl fst. simpl snd. rewrite Hc.
    repeat rewrite <- app_assoc. simpl app. fold tr3.
    unfold bind at 1. rewrite Hmk.
    unfold bind at 1.
    rewrite (try_rollback_answer _ _ _ None e _ _ _ _ _ Hbody Hrb Hcl).
    reflexivity.
Qed.

End Failures.



(** ** Refresh and logout on the class as it is in [crud_token.py] *)

(** C1, at the inputs where it fails. The store holds one row of user 42,
    for the access token ["tok.old"] and the refresh token
    ["refresh.42.10"]. A refresh that presents an access token without a
    row, and one that presents the stored access token with another refresh
    token, both end in the [AttributeError] of the lookup [token_dal.get],
    in both handlers, and not in [credentials_exception]. No call is made
    and the store is as before: the class defines no [get]. *)
Theorem refresh_without_matching_record_raises_attribute_error :
  let st := mkStore [Ref.row_42] [Ref.row_42] None 1200 in
  let missing := TokenUser.mk "42" "tok.live" (Some "refresh.42.10") in
  let mismatched := TokenUser.mk "42" "tok.old" (Some "refresh.42.11") in
  let error := AttributeError "'RefreshTokenDAL' object has no attribute 'get'" in
  let api := api_token_refresh RefreshTokenDAL.instance Ref.backend Ref.env in
  let web := web_token_refresh RefreshTokenDAL.instance Ref.backend Ref.env in
  find (has_key 42 "tok.live") (pending st) = None
  /\ find (has_key 42 "tok.old") (pending st) = Some Ref.row_42
  /\ Ref.decrypt (Token.refresh_token Ref.row_42) = Ok "refresh.42.10"
  /\ api missing (st, []) = (Raise error, (st, []))
  /\ web missing (st, []) = (Raise error, (st, []))
  /\ api mismatched (st, []) = (Raise error, (st, []))
  /\ web mismatched (st, []) = (Raise error, (st, []))
  /\ error <> HTTPException credentials_exception.
Proof.
  intros st missing mismatched error api web.
  repeat (split; [reflexivity|]). discriminate.
Qed.


(** C7, at the input where it fails. One row is stored, for user 42 and
    the access token ["tok.old"]. The first logout with that token does not
    find [token_dal.exists]: it rolls back and answers 404, and the row
    stays; the second logout does the same on the state the first one left.
    Neither issues a probe, a delete or a commit. The first half of the
    claim holds: with no stored record a logout answers 404 after a
    rollback, with no delete and no commit. *)
Theorem consecutive_logouts_both_answer_not_found :
  let token := TokenUser.mk "42" "tok.old" None in
  let api := api_logout RefreshTokenDAL.instance Ref.backend Ref.env token in
  let web := web_logout RefreshTokenDAL.instance Ref.backend Ref.env token in
  let stored := mkStore [Ref.row_42] [Ref.row_42] None 1200 in
  let empty := mkStore [] [] None 1200 in
  let api_404 := Ok (JSONResponse "Invalid Refresh Token" HTTP_404_NOT_FOUND) in
  let web_404 := Ok (JSONResponse "Token Expired fail" HTTP_404_NOT_FOUND) in
  existsb (has_key 42 "tok.old") (pending stored) = true
  /\ api (stored, []) = (api_404, (stored, [EvRollback; EvClose]))
  /\ api (fst (snd (api (stored, []))), []) = (api_404, (stored, [EvRollback; EvClose]))
  /\ web (stored, []) = (web_404, (stored, [EvRollback; EvClose]))
  /\ web (fst (snd (web (stored, []))), []) = (web_404, (stored, [EvRollback; EvClose]))
  /\ api (empty, []) = (api_404, (empty, [EvRollback; EvClose]))
  /\ web (empty, []) = (web_404, (empty, [EvRollback; EvClose]))
  /\ no_mutation [EvRollback; EvClose].
Proof.
  intros token api web stored empty api_404 web_404.
  repeat (split; [reflexivity|]).
  intros ev [<-|[<-|[]]]; reflexivity.
Qed.

(** ** Login *)

(** Case analysis on the next call of a run that is known to have ended:
    the innermost scrutinee is the call that runs first. *)
Ltac next_call t :=
  lazymatch t with
  | context [match ?y with _ => _ end] => next_call y
  | _ => t
  end.

Ltac run_step H :=
  let T := type of H in
  lazymatch T with
  | context [match ?x with _ => _ end] =>
      let y := next_call x in
      first [ is_var y; destruct y
            | let Heq := fresh "Hrun" in destruct y eqn:Heq ]
  end;
  simpl in H; try discriminate H.

Ltac unfold_run H :=
  unfold try_stmt, or_return, make_insert_schema, make_update_schema,
    session_rollback, session_commit, session_close, user_id_of,
    bind, getattr, int_, perform, lift_res, ret, raise in H;
  simpl in H.

(** C8. A login that succeeds (API or web) made exactly these calls: the
    principal lookup, the authentication, the minting of the pair, the
    insert, the last-login update, one commit and the close. The inserted
    record has the plaintext access token, the encryption of the refresh
    token, the keyed digest of the plaintext refresh token as
    [refresh_token_key], [issued_at] from the pair's [iat] and [expires_at]
    from the refresh token's expiry; the insert and the last-login update
    precede the single commit. *)
Theorem successful_login_inserts_encrypted_record
    (S : Type) (D : DAL S) (B : Backend S) (E : Env)
    (client_host : string) (login_info : LoginRequestSchema.t)
    (w w' : World S) (resp : Response) :
  api_login D B E client_host login_info w = (Ok resp, w')
  \/ web_login D B E client_host login_info w = (Ok resp, w') ->
  status_code resp = HTTP_200_OK ->
  exists user token iat exp s1 s2,
    create_new_jwt_token B (py_str E (User.id user)) s1 = (Ok token, s2)
    /\ py_int E (CreateTokenSchema.iat token) = Some iat
    /\ py_int E (CreateTokenSchema.refresh_token_expires_in token) = Some exp
    /\ (let record :=
          InsertTokenSchema.mk
            (User.id user)
            (CreateTokenSchema.access_token token)
            (encrypt E (CreateTokenSchema.refresh_token token))
            (hmac_sha256 E (CreateTokenSchema.refresh_token token))
            (fromtimestamp iat)
            (fromtimestamp exp) in
        snd w' = snd w ++
                 [EvGetUserFromEmail (hmac_sha256 E (LoginRequestSchema.email login_info));
                  EvAuthenticate (Some user) (LoginRequestSchema.password login_info);
                  EvCreateNewJwtToken (py_str E (User.id user));
                  EvInsert record;
                  EvUpdateLastLogin (User.id user) client_host;
                  EvCommit;
                  EvClose])
    /\ (content resp = CreateToken token
        \/ cookies resp
           = [mkCookie "access_token" (CreateTokenSchema.access_token token) true None;
              mkCookie "refresh_token" (CreateTokenSchema.refresh_token token) true None]).
Proof.
  destruct w as [s tr].
  intros [H|H] Hst.
  - unfold api_login in H. unfold_run H.
    repeat run_step H;
      try (inversion H; subst; simpl in Hst; discriminate Hst).
    inversion H; subst; clear H. simpl.
    do 6 eexists.
    split; [eassumption|]. split; [eassumption|]. split; [eassumption|].
    split.
    + repeat rewrite <- app_assoc. reflexivity.
    + left. reflexivity.
  - unfold web_login in H. unfold_run H.
    repeat run_step H;
      try (inversion H; subst; simpl in Hst; discriminate Hst).
    inversion H; subst; clear H. simpl.
    do 6 eexists.
    split; [eassumption|]. split; [eassumption|]. split; [eassumption|].
    split.
    + repeat rewrite <- app_assoc. reflexivity.
    + right. reflexivity.
Qed.

(** A login of the known principal on the empty reference store at time
    1200. *)
Lemma successful_login_inserts_encrypted_record_witness :
  let login := LoginRequestSchema.mk "user@example.com" "correct horse" in
  let run := web_login RefreshTokenDAL.instance Ref.backend Ref.env "10.0.0.1" login
               (mkStore [] [] None 1200, []) in
  exists user token iat exp,
    snd (snd run)
    = [EvGetUserFromEmail "mac:user@example.com";
       EvAuthenticate (Some user) "correct horse";
       EvCreateNewJwtToken (Ref.py_str (User.id user));
       EvInsert (InsertTokenSchema.mk
                   (User.id user)
                   (CreateTokenSchema.access_token token)
                   (Ref.encrypt (CreateTokenSchema.refresh_token token))
                   (Ref.hmac_sha256 (CreateTokenSchema.refresh_token token))
                   (fromtimestamp iat) (fromtimestamp exp));
       EvUpdateLastLogin (User.id user) "10.0.0.1";
       EvCommit;
       EvClose].
Proof.
  intros login run.
  destruct (successful_login_inserts_encrypted_record
              Store RefreshTokenDAL.instance Ref.backend Ref.env "10.0.0.1" login
              (mkStore [] [] None 1200, []) (snd run)
              (mkResponse 200 (Message "login success")
                 [mkCookie "access_token" "access.42.1200" true None;
                  mkCookie "refresh_token" "refresh.42.1200" true None])
              (or_intror eq_refl) eq_refl)
    as [user [token [iat [exp [s1 [s2 [_ [_ [_ [Htr _]]]]]]]]]].
  exists user, token, iat, exp. exact Htr.
Defined.

(** ** The two transports *)

Ltac goal_step :=
  lazymatch goal with
  | |- context [match ?x with _ => _ end] =>
      let y := next_call x in
      first [ is_var y; destruct y
            | let Heq := fresh "Hrun" in destruct y eqn:Heq ]
  end;
  simpl.

Ltac unfold_goal :=
  unfold map_response, try_stmt, or_return, make_insert_schema,
    make_update_schema, refresh_check, logout_try,
    session_rollback, session_commit, session_close, user_id_of,
    bind, getattr, int_, perform, lift_res, ret, raise;
  simpl.

Section Transports.

Context {R : Runtime}.

(** C10. For every collaborator, input and world: the web login is the API
    login with its token response re-encoded as two httpOnly cookies and a
    message, and the web refresh is the API refresh re-encoded the same way
    (same exception or same error response, same final state, same calls);
    the two logouts leave the same world with the same status code or the
    same exception; and the two lenient verifiers agree on the same pair of
    token values. *)
Theorem api_and_web_flows_agree
    (S : Type) (D : DAL S) (B : Backend S) (E : Env) :
  (forall client_host login_info w,
      web_login D B E client_host login_info w
      = map_response (cookie_encoding "login success")
                     (api_login D B E client_host login_info w))
  /\ (forall token w,
        web_token_refresh D B E token w
        = map_response (cookie_encoding "refresh success")
                       (api_token_refresh D B E token w))
  /\ (forall token w,
        same_transition (api_logout D B E token w) (web_logout D B E token w))
  /\ (forall jws_verify claims_valid now a r,
        AuthorizeRefreshCookieUser jws_verify claims_valid now (Some a) (Some r)
        = AuthorizeTokenRefresh jws_verify claims_valid now
            (TokenRefreshRequestSchema.mk a r)).
Proof.
  split; [|split; [|split]].
  - intros client_host login_info [s tr].
    unfold web_login, api_login. unfold_goal.
    repeat goal_step; reflexivity.
  - intros token [s tr].
    unfold web_token_refresh, api_token_refresh. unfold_goal.
    repeat goal_step; reflexivity.
  - intros token [s tr].
    unfold same_transition, web_logout, api_logout. unfold_goal.
    repeat goal_step; split; reflexivity.
  - intros jws_verify claims_valid now a r.
    unfold AuthorizeRefreshCookieUser, AuthorizeTokenRefresh. simpl.
    destruct (String.eqb a "" || String.eqb r "")%bool; reflexivity.
Qed.

End Transports.

(* ------------------------------------------------------------------ *)
(** * Further properties of the verifiers *)
(* ------------------------------------------------------------------ *)

Section VerifierSoundness.

Context {R : Runtime}.
Variable jws_verify : string -> option Payload.
Variable claims_valid : Payload -> bool.
Variable now : Z.

Lemma verifier_body_accepts (d : Res Payload) build (tu : TokenUser.t) :
  verifier_body d build = Ok tu ->
  exists claims, d = Ok claims /\ build claims = Ok tu.
Proof.
  unfold verifier_body, except_jwt, except_validation.
  destruct d as [claims|e]; simpl.
  - destruct (build claims) as [tu'|e] eqn:Hb.
    + intros H; inversion H; subst. exists claims. auto.
    + destruct e; simpl; discriminate.
  - destruct e; simpl; discriminate.
Qed.

Lemma jwt_decode_accepts (verify_exp : bool) (t : string) (claims : Payload) :
  jwt_decode jws_verify claims_valid now verify_exp t = Ok claims ->
  jws_verify t = Some claims
  /\ claims_valid claims = true
  /\ (verify_exp = true -> validate_exp now claims = Ok tt).
Proof.
  unfold jwt_decode.
  destruct (jws_verify t) as [c|]; [|discriminate].
  destruct verify_exp; simpl.
  - destruct (validate_exp now c) as [[]|e] eqn:He; simpl; [|discriminate].
    destruct (claims_valid c) eqn:Hc; [|discriminate].
    intros H; inversion H; subst. auto.
  - destruct (claims_valid c) eqn:Hc; [|discriminate].
    intros H; inversion H; subst. repeat split; auto. discriminate.
Qed.

Lemma TokenUser_new_accepts (p : Payload) (a : string) (r : option string)
      (tu : TokenUser.t) :
  TokenUser_new p a r true = Ok tu ->
  dict_get "sub" p = Some (JStr (TokenUser.sub tu))
  /\ TokenUser.access_token tu = a
  /\ TokenUser.refresh_token tu = r.
Proof.
  unfold TokenUser_new, TokenUser_validate.
  destruct (dict_has "access_token" p); [discriminate|].
  destruct (true && dict_has "refresh_token" p)%bool; [discriminate|].
  destruct (dict_get "sub" p) as [[| | | s | |]|]; try discriminate.
  intros H; inversion H; subst. auto.
Qed.

Lemma TokenUser_new_bearer_accepts (p : Payload) (a : string) (tu : TokenUser.t) :
  TokenUser_new p a None false = Ok tu ->
  dict_get "sub" p = Some (JStr (TokenUser.sub tu))
  /\ TokenUser.access_token tu = a.
Proof.
  unfold TokenUser_new, TokenUser_validate.
  destruct (dict_has "access_token" p); [discriminate|]. simpl.
  destruct (dict_get "sub" p) as [[| | | s | |]|]; try discriminate.
  destruct (dict_get "refresh_token" p) as [[| | | | |]|];
    intros H; inversion H; subst; auto.
Qed.

End VerifierSoundness.

Section AcceptedTokens.

Context {R : Runtime}.

(** X1. A verifier returns a [TokenUser] only for a token that the signing
    layer verified and whose registered claims passed; the subject is the
    token's [sub] claim and the token values are the presented ones. The
    strict verifiers, in addition, only accept a token whose expiry check
    passed. *)
Theorem verifiers_accept_only_verified_tokens
    (jws_verify : string -> option Payload) (claims_valid : Payload -> bool)
    (now : Z) :
  (forall authorization tu,
      AuthorizeTokenUser jws_verify claims_valid now authorization = Ok tu ->
      exists claims,
        bearer_presents authorization (TokenUser.access_token tu)
        /\ jws_verify (TokenUser.access_token tu) = Some claims
        /\ claims_valid claims = true
        /\ validate_exp now claims = Ok tt
        /\ dict_get "sub" claims = Some (JStr (TokenUser.sub tu)))
  /\ (forall a r tu,
        AuthorizeCookieUser jws_verify claims_valid now a r = Ok tu ->
        exists claims,
          a = Some (TokenUser.access_token tu)
          /\ r = TokenUser.refresh_token tu
          /\ falsy a = false /\ falsy r = false
          /\ jws_verify (TokenUser.access_token tu) = Some claims
          /\ claims_valid claims = true
          /\ validate_exp now claims = Ok tt
          /\ dict_get "sub" claims = Some (JStr (TokenUser.sub tu)))
  /\ (forall a r tu,
        AuthorizeRefreshCookieUser jws_verify claims_valid now a r = Ok tu ->
        exists claims,
          a = Some (TokenUser.access_token tu)
          /\ r = TokenUser.refresh_token tu
          /\ falsy a = false /\ falsy r = false
          /\ jws_verify (TokenUser.access_token tu) = Some claims
          /\ claims_valid claims = true
          /\ dict_get "sub" claims = Some (JStr (TokenUser.sub tu)))
  /\ (forall token tu,
        AuthorizeTokenRefresh jws_verify claims_valid now token = Ok tu ->
        exists claims,
          TokenUser.access_token tu = TokenRefreshRequestSchema.access_token token
          /\ TokenUser.refresh_token tu
             = Some (TokenRefreshRequestSchema.refresh_token token)
          /\ TokenRefreshRequestSchema.access_token token <> ""
          /\ TokenRefreshRequestSchema.refresh_token token <> ""
          /\ jws_verify (TokenUser.access_token tu) = Some claims
          /\ claims_valid claims = true
          /\ dict_get "sub" claims = Some (JStr (TokenUser.sub tu))).
Proof.
  split; [|split; [|split]].
  - intros authorization tu. unfold AuthorizeTokenUser, bearer_presents.
    destruct (get_authorization_scheme_param authorization) as [scheme t]. simpl.
    destruct (String.eqb_spec (lower scheme) "bearer") as [Hs|]; [|discriminate].
    destruct (String.eqb_spec t "") as [|Ht]; [discriminate|]. simpl.
    intros H. apply verifier_body_accepts in H. destruct H as [claims [Hd Hb]].
    apply jwt_decode_accepts in Hd. destruct Hd as [Hv [Hc He]].
    apply TokenUser_new_bearer_accepts in Hb. destruct Hb as [Hsub Hat].
    exists claims. rewrite Hat. repeat split; auto.
  - intros a r tu. unfold AuthorizeCookieUser.
    destruct (falsy a) eqn:Hfa; [discriminate|].
    destruct (falsy r) eqn:Hfr; [discriminate|]. simpl.
    destruct a as [a|]; [|discriminate].
    intros H. apply verifier_body_accepts in H. destruct H as [claims [Hd Hb]].
    apply jwt_decode_accepts in Hd. destruct Hd as [Hv [Hc He]].
    apply TokenUser_new_accepts in Hb. destruct Hb as [Hsub [Hat Hrt]].
    exists claims. rewrite Hat, Hrt. repeat split; auto.
  - intros a r tu. unfold AuthorizeRefreshCookieUser.
    destruct (falsy a) eqn:Hfa; [discriminate|].
    destruct (falsy r) eqn:Hfr; [discriminate|]. simpl.
    destruct a as [a|]; [|discriminate].
    intros H. apply verifier_body_accepts in H. destruct H as [claims [Hd Hb]].
    apply jwt_decode_accepts in Hd. destruct Hd as [Hv [Hc _]].
    apply TokenUser_new_accepts in Hb. destruct Hb as [Hsub [Hat Hrt]].
    exists claims. rewrite Hat, Hrt. repeat split; auto.
  - intros token tu. unfold AuthorizeTokenRefresh.
    destruct (String.eqb_spec (TokenRefreshRequestSchema.access_token token) "")
      as [|Ha]; [discriminate|].
    destruct (String.eqb_spec (TokenRefreshRequestSchema.refresh_token token) "")
      as [|Hr]; [discriminate|]. simpl.
    intros H. apply verifier_body_accepts in H. destruct H as [claims [Hd Hb]].
    apply jwt_decode_accepts in Hd. destruct Hd as [Hv [Hc _]].
    apply TokenUser_new_accepts in Hb. destruct Hb as [Hsub [Hat Hrt]].
    exists claims. rewrite Hat, Hrt. repeat split; auto.
Qed.

End AcceptedTokens.

(** On the reference instance the bearer verifier accepts ["tok.str.live"],
    whose [exp] is the string ["9999"]; the theorem then gives its claims,
    signed and past the expiry check. *)
Lemma verifiers_accept_only_verified_tokens_witness :
  exists claims,
    Ref.jws_verify "tok.str.live" = Some claims
    /\ validate_exp Ref.now claims = Ok tt
    /\ dict_get "exp" claims = Some (JStr "9999")
    /\ dict_get "sub" claims = Some (JStr "42").
Proof.
  assert (Hrun : AuthorizeTokenUser Ref.jws_verify Ref.claims_valid Ref.now
                   (Some "Bearer tok.str.live")
                 = Ok (TokenUser.mk "42" "tok.str.live" None)) by reflexivity.
  destruct (proj1 (verifiers_accept_only_verified_tokens
                     Ref.jws_verify Ref.claims_valid Ref.now)
                  (Some "Bearer tok.str.live")
                  (TokenUser.mk "42" "tok.str.live" None) Hrun)
    as [claims [_ [Hv [_ [He Hs]]]]].
  exists claims. repeat split; auto.
  simpl in Hv. injection Hv as <-. reflexivity.
Defined.

Section LenientExtendsStrict.

Context {R : Runtime}.

(** X2. The lenient cookie verifier accepts whatever the strict one
    accepts, with the same [TokenUser]. When the lenient one accepts, the
    strict one returns the same [TokenUser] if the expiry check passes,
    raises [token_expired_exception] if [int(claims['exp'])] lies before the
    clock, [credentials_exception] if [int] raises a [ValueError] on [exp],
    and the [TypeError] or [OverflowError] that [int] raises otherwise. *)
Theorem lenient_cookie_verifier_extends_strict
    (jws_verify : string -> option Payload) (claims_valid : Payload -> bool)
    (now : Z) (a r : option string) (tu : TokenUser.t) :
  let strict := AuthorizeCookieUser jws_verify claims_valid now a r in
  let lenient := AuthorizeRefreshCookieUser jws_verify claims_valid now a r in
  (strict = Ok tu -> lenient = Ok tu)
  /\ (lenient = Ok tu ->
      exists claims,
        jws_verify (TokenUser.access_token tu) = Some claims
        /\ match validate_exp now claims with
           | Ok _ => strict = Ok tu
           | Raise ExpiredSignatureError =>
               strict = Raise (HTTPException token_expired_exception)
           | Raise JWTClaimsError =>
               strict = Raise (HTTPException credentials_exception)
           | Raise e => int_escape e /\ strict = Raise e
           end).
Proof.
  intros strict lenient. subst strict lenient.
  unfold AuthorizeCookieUser, AuthorizeRefreshCookieUser.
  destruct (falsy a || falsy r)%bool; [split; discriminate|].
  destruct a as [a|]; [|split; discriminate].
  split.
  - intros H. apply verifier_body_accepts in H. destruct H as [claims [Hd Hb]].
    destruct (jwt_decode_accepts _ _ _ _ _ _ Hd) as [Hv [Hc _]].
    apply (verifier_body_ok _ _ claims tu); [|exact Hb].
    apply jwt_decode_lenient; assumption.
  - intros H. apply verifier_body_accepts in H. destruct H as [claims [Hd Hb]].
    destruct (jwt_decode_accepts _ _ _ _ _ _ Hd) as [Hv [Hc _]].
    destruct (TokenUser_new_accepts _ _ _ _ Hb) as [_ [Hat _]].
    exists claims. rewrite Hat. split; [exact Hv|].
    unfold jwt_decode. rewrite Hv.
    destruct (validate_exp now claims) as [[]|e] eqn:He; simpl.
    + rewrite Hc. unfold verifier_body. simpl. rewrite Hb. reflexivity.
    + destruct (validate_exp_raises _ _ _ He) as [-> | [-> | Hesc]];
        [reflexivity|reflexivity|].
      destruct Hesc as [[m ->]|[m ->]];
        (split; [unfold int_escape; eauto|reflexivity]).
Qed.

End LenientExtendsStrict.

(** The strict verifier accepts ["tok.live"] and so does the lenient one;
    the lenient one accepts ["tok.old"], which the strict one reports
    expired, and ["tok.null"], on which the strict one lets the [TypeError]
    of [int(None)] through. *)
Lemma lenient_cookie_verifier_extends_strict_witness :
  AuthorizeRefreshCookieUser Ref.jws_verify Ref.claims_valid Ref.now
    (Some "tok.live") (Some "refresh.42.1000")
  = Ok (TokenUser.mk "42" "tok.live" (Some "refresh.42.1000"))
  /\ (exists claims,
        Ref.jws_verify "tok.old" = Some claims
        /\ validate_exp Ref.now claims = Raise ExpiredSignatureError)
  /\ AuthorizeCookieUser Ref.jws_verify Ref.claims_valid Ref.now
       (Some "tok.null") (Some "refresh.42.10")
     = Raise (TypeError (Ref.int_type_error JNull)).
Proof.
  split; [|split].
  - exact (proj1 (lenient_cookie_verifier_extends_strict
                    Ref.jws_verify Ref.claims_valid Ref.now
                    (Some "tok.live") (Some "refresh.42.1000")
                    (TokenUser.mk "42" "tok.live" (Some "refresh.42.1000")))
                 eq_refl).
  - destruct (proj2 (lenient_cookie_verifier_extends_strict
                       Ref.jws_verify Ref.claims_valid Ref.now
                       (Some "tok.old") (Some "refresh.42.10")
                       (TokenUser.mk "42" "tok.old" (Some "refresh.42.10")))
                    eq_refl) as [claims [Hv _]].
    exists claims. split; [exact Hv|].
    simpl in Hv. injection Hv as <-. reflexivity.
  - destruct (proj2 (lenient_cookie_verifier_extends_strict
                       Ref.jws_verify Ref.claims_valid Ref.now
                       (Some "tok.null") (Some "refresh.42.10")
                       (TokenUser.mk "42" "tok.null" (Some "refresh.42.10")))
                    eq_refl) as [claims [Hv Hm]].
    simpl in Hv. injection Hv as <-. exact (proj2 Hm).
Defined.

Section RefreshTokenPassedOn.

Context {R : Runtime}.

(** X3. The verifiers that receive a refresh token pass it on without
    looking at it: with another non-empty refresh token the verdict is the
    same, and an accepted [TokenUser] differs only in that field. *)
Theorem verifiers_do_not_inspect_refresh_token
    (jws_verify : string -> option Payload) (claims_valid : Payload -> bool)
    (now : Z) (a r1 r2 : string) :
  r1 <> "" -> r2 <> "" ->
  let carry (verdict : Res TokenUser.t) :=
    match verdict with
    | Ok tu => Ok (TokenUser.mk (TokenUser.sub tu) (TokenUser.access_token tu) (Some r2))
    | Raise e => Raise e
    end in
  AuthorizeCookieUser jws_verify claims_valid now (Some a) (Some r2)
  = carry (AuthorizeCookieUser jws_verify claims_valid now (Some a) (Some r1))
  /\ AuthorizeRefreshCookieUser jws_verify claims_valid now (Some a) (Some r2)
     = carry (AuthorizeRefreshCookieUser jws_verify claims_valid now (Some a) (Some r1))
  /\ AuthorizeTokenRefresh jws_verify claims_valid now
       (TokenRefreshRequestSchema.mk a r2)
     = carry (AuthorizeTokenRefresh jws_verify claims_valid now
                (TokenRefreshRequestSchema.mk a r1)).
Proof.
  intros H1 H2 carry.
  apply String.eqb_neq in H1. apply String.eqb_neq in H2.
  assert (Hbody : forall d,
            verifier_body d (fun p => TokenUser_new p a (Some r2) true)
            = carry (verifier_body d (fun p => TokenUser_new p a (Some r1) true))).
  { intros [p|e]; unfold verifier_body; simpl.
    - unfold TokenUser_new, TokenUser_validate.
      destruct (dict_has "access_token" p); [reflexivity|].
      destruct (true && dict_has "refresh_token" p)%bool; [reflexivity|].
      destruct (dict_get "sub" p) as [[| | | s | |]|]; reflexivity.
    - destruct e; reflexivity. }
  unfold AuthorizeCookieUser, AuthorizeRefreshCookieUser, AuthorizeTokenRefresh.
  simpl. rewrite H1, H2.
  destruct (String.eqb a ""); simpl.
  - repeat split; reflexivity.
  - repeat split; apply Hbody.
Qed.

End RefreshTokenPassedOn.

Lemma verifiers_do_not_inspect_refresh_token_witness :
  AuthorizeRefreshCookieUser Ref.jws_verify Ref.claims_valid Ref.now
    (Some "tok.old") (Some "anything")
  = Ok (TokenUser.mk "42" "tok.old" (Some "anything")).
Proof.
  assert (H1 : "refresh.42.10" <> "") by discriminate.
  assert (H2 : "anything" <> "") by discriminate.
  exact (proj1 (proj2 (verifiers_do_not_inspect_refresh_token
                         Ref.jws_verify Ref.claims_valid Ref.now
                         "tok.old" "refresh.42.10" "anything" H1 H2))).
Defined.

Lemma lower_ascii_space (c : ascii) :
  Ascii.eqb (lower_ascii c) " "%char = Ascii.eqb c " "%char.
Proof.
  destruct c as [[] [] [] [] [] [] [] []]; reflexivity.
Qed.

Lemma no_space_lower (s : string) : no_space (lower s) = no_space s.
Proof.
  induction s as [|c s IH]; [reflexivity|].
  simpl. rewrite lower_ascii_space, IH. reflexivity.
Qed.

Lemma partition_space_scheme (scheme t : string) :
  no_space scheme = true ->
  partition_space (scheme ++ String " "%char t)%string = (scheme, t).
Proof.
  induction scheme as [|c s IH]; simpl.
  - reflexivity.
  - destruct (Ascii.eqb c " "%char); simpl; [discriminate|].
    intros H. rewrite (IH H). reflexivity.
Qed.

Section BearerScheme.

Context {R : Runtime}.

(** X4. The bearer verifier reads the scheme up to the first space and
    compares it without regard to case: a header with any spelling of
    [bearer] gets the verdict of [Bearer] with the same token. *)
Theorem bearer_scheme_is_case_insensitive
    (jws_verify : string -> option Payload) (claims_valid : Payload -> bool)
    (now : Z) (scheme t : string) :
  lower scheme = "bearer" ->
  AuthorizeTokenUser jws_verify claims_valid now
    (Some (scheme ++ String " "%char t)%string)
  = AuthorizeTokenUser jws_verify claims_valid now
      (Some (String.append "Bearer " t)).
Proof.
  intros Hs.
  assert (Hns : no_space scheme = true).
  { rewrite <- no_space_lower, Hs. reflexivity. }
  assert (Hne : String.eqb (scheme ++ String " "%char t)%string "" = false).
  { destruct scheme; reflexivity. }
  unfold AuthorizeTokenUser, get_authorization_scheme_param, falsy.
  rewrite Hne. rewrite (partition_space_scheme scheme t Hns). rewrite Hs.
  reflexivity.
Qed.

End BearerScheme.

Lemma bearer_scheme_is_case_insensitive_witness :
  AuthorizeTokenUser Ref.jws_verify Ref.claims_valid Ref.now (Some "bEaReR tok.live")
  = Ok (TokenUser.mk "42" "tok.live" None).
Proof.
  exact (bearer_scheme_is_case_insensitive
           Ref.jws_verify Ref.claims_valid Ref.now "bEaReR" "tok.live" eq_refl).
Defined.

Section StrictLeaks.

Context {R : Runtime}.

(** X5. No decoding error and no validation error leaves a strict verifier
    as such: whatever the input, an exception that a strict verifier raises
    is neither a [JWTError] (or a subclass) nor a [ValidationError]; both
    are turned into one of the two HTTP errors. *)
Theorem strict_verifiers_leak_no_decoding_error
    (jws_verify : string -> option Payload) (claims_valid : Payload -> bool)
    (now : Z) (e : Exn) :
  (forall authorization,
      AuthorizeTokenUser jws_verify claims_valid now authorization = Raise e ->
      is_JWTError e = false /\ e <> ValidationError)
  /\ (forall a r,
        AuthorizeCookieUser jws_verify claims_valid now a r = Raise e ->
        is_JWTError e = false /\ e <> ValidationError).
Proof.
  assert (Hshape : e = HTTPException credentials_exception
                   \/ e = HTTPException token_expired_exception
                   \/ int_escape e ->
                   is_JWTError e = false /\ e <> ValidationError).
  { intros H. split.
    - destruct H as [->|[->|[[m ->]|[m ->]]]]; reflexivity.
    - destruct H as [->|[->|[[m ->]|[m ->]]]]; discriminate. }
  assert (Hbody : forall d build,
            (forall e', d = Raise e' -> is_JWTError e' = true \/ int_escape e') ->
            (forall p e', build p = Raise e' ->
                          e' = ValidationError \/ exists m, e' = TypeError m) ->
            verifier_body d build = Raise e ->
            e = HTTPException credentials_exception
            \/ e = HTTPException token_expired_exception
            \/ int_escape e).
  { intros d build Hd Hb. unfold verifier_body, int_escape.
    destruct d as [p|e']; simpl.
    - destruct (build p) as [tu|e'] eqn:Hp; simpl; [discriminate|].
      destruct (Hb _ _ Hp) as [->|[m ->]]; simpl; intros H; inversion H; eauto.
    - destruct (Hd e' eq_refl) as [Hj|[[m ->]|[m ->]]];
        [|intros H; inversion H; eauto|intros H; inversion H; eauto].
      destruct e'; try discriminate; simpl; intros H; inversion H; auto. }
  split.
  - intros authorization Hrun. apply Hshape. revert Hrun.
    unfold AuthorizeTokenUser.
    destruct (get_authorization_scheme_param authorization) as [scheme t].
    destruct (_ || _)%bool; [intros H; inversion H; auto|].
    apply Hbody.
    + intros e'. apply jwt_decode_raises.
    + intros p e'. apply TokenUser_new_raises.
  - intros a r Hrun. apply Hshape. revert Hrun.
    unfold AuthorizeCookieUser.
    destruct (_ || _)%bool; [intros H; inversion H; auto|].
    destruct a as [a|]; [|intros H; inversion H; auto].
    apply Hbody.
    + intros e'. apply jwt_decode_raises.
    + intros p e'. apply TokenUser_new_raises.
Qed.

End StrictLeaks.

(** On the reference instance the strict cookie verifier raises on
    ["tok.null"], whose [exp] is [null]: what it raises is not a [JWTError]
    but the [TypeError] of [int(None)], which no clause catches. *)
Lemma strict_verifiers_leak_no_decoding_error_witness :
  exists e,
    AuthorizeCookieUser Ref.jws_verify Ref.claims_valid Ref.now
      (Some "tok.null") (Some "refresh.42.10") = Raise e
    /\ is_JWTError e = false
    /\ e = TypeError (Ref.int_type_error JNull).
Proof.
  assert (Hrun : AuthorizeCookieUser Ref.jws_verify Ref.claims_valid Ref.now
                   (Some "tok.null") (Some "refresh.42.10")
                 = Raise (TypeError (Ref.int_type_error JNull))) by reflexivity.
  eexists. split; [exact Hrun|]. split; [|reflexivity].
  exact (proj1 (proj2 (strict_verifiers_leak_no_decoding_error
                         Ref.jws_verify Ref.claims_valid Ref.now
                         (TypeError (Ref.int_type_error JNull)))
                      (Some "tok.null") (Some "refresh.42.10") Hrun)).
Defined.

(* ------------------------------------------------------------------ *)
(** * Further properties of the handlers *)
(* ------------------------------------------------------------------ *)

(** X6. A login answers 401 exactly when the authentication says no: the
    only calls made are the principal lookup and the authentication, so no
    pair is minted, nothing is written or committed, and the handler leaves
    the session as it is. *)
Theorem rejected_login_touches_nothing
    (S : Type) (D : DAL S) (B : Backend S) (E : Env)
    (client_host : string) (login_info : LoginRequestSchema.t)
    (w w' : World S) (resp : Response) :
  let email_key := hmac_sha256 E (LoginRequestSchema.email login_info) in
  let password := LoginRequestSchema.password login_info in
  api_login D B E client_host login_info w = (Ok resp, w')
  \/ web_login D B E client_host login_info w = (Ok resp, w') ->
  status_code resp = HTTP_401_UNAUTHORIZED ->
  exists user s1,
    get_user_from_email B email_key (fst w) = (Ok user, s1)
    /\ authenticate B user password s1 = (Ok false, fst w')
    /\ snd w' = snd w ++ [EvGetUserFromEmail email_key; EvAuthenticate user password]
    /\ resp = JSONResponse "Incorrect username or password." HTTP_401_UNAUTHORIZED.
Proof.
  destruct w as [s tr].
  intros email_key password [H|H] Hst.
  - unfold api_login in H. unfold_run H.
    repeat run_step H;
      try (inversion H; subst; simpl in Hst; discriminate Hst).
    inversion H; subst; clear H. simpl. subst email_key password.
    match goal with
    | Hn : negb ?b = true |- _ => destruct b; [discriminate Hn|]
    end.
    do 2 eexists. split; [eassumption|]. split; [eassumption|].
    split; [|reflexivity]. rewrite <- app_assoc. reflexivity.
  - unfold web_login in H. unfold_run H.
    repeat run_step H;
      try (inversion H; subst; simpl in Hst; discriminate Hst).
    inversion H; subst; clear H. simpl. subst email_key password.
    match goal with
    | Hn : negb ?b = true |- _ => destruct b; [discriminate Hn|]
    end.
    do 2 eexists. split; [eassumption|]. split; [eassumption|].
    split; [|reflexivity]. rewrite <- app_assoc. reflexivity.
Qed.

(** A wrong password on the reference instance. *)
Lemma rejected_login_touches_nothing_witness :
  let login := LoginRequestSchema.mk "user@example.com" "guess" in
  let st := mkStore [Ref.row_42] [Ref.row_42] None 1200 in
  exists user s1,
    Ref.get_user_from_email "mac:user@example.com" st = (Ok user, s1)
    /\ Ref.authenticate user "guess" s1 = (Ok false, st).
Proof.
  intros login st.
  destruct (rejected_login_touches_nothing
              Store RefreshTokenDAL.instance Ref.backend Ref.env "10.0.0.1" login
              (st, [])
              (st, [EvGetUserFromEmail "mac:user@example.com";
                    EvAuthenticate (Some (User.mk 42)) "guess"])
              (JSONResponse "Incorrect username or password." 401)
              (or_introl eq_refl) eq_refl)
    as [user [s1 [Hu [Ha _]]]].
  exists user, s1. split; assumption.
Defined.

(** The insert of a login fails on the reference store: nothing is
    committed. *)
Lemma login_write_failure_witness :
  let login := LoginRequestSchema.mk "user@example.com" "correct horse" in
  let st := mkStore [] [] (Some 1%nat) 1200 in
  exists w,
    api_login RefreshTokenDAL.instance Ref.backend Ref.env "10.0.0.1" login (st, [])
    = (Ok (JSONResponse "Failed to select/insert data" 500), w)
    /\ committed (fst w) = [].
Proof.
  intros login st.
  eexists. split.
  - refine (proj1 (login_write_failure
             Store RefreshTokenDAL.instance Ref.backend Ref.env "10.0.0.1" login
             (User.mk 42)
             (CreateTokenSchema.mk "access.42.1200" "refresh.42.1200"
                                   "1200" "1800" "606000")
             1200 606000
             st _ _ _ _ _ _ [] _ _
             eq_refl eq_refl eq_refl eq_refl eq_refl eq_refl eq_refl eq_refl)).
  - reflexivity.
Defined.

(** ** The session of a request *)

Ltac unfold_calls :=
  unfold calls, answer, api_login, web_login, api_logout, web_logout,
    api_token_refresh, web_token_refresh;
  unfold_goal.

(** X9. Whatever the collaborators do, the calls of a handler come in the
    order of a transaction: statements, then at most one commit, then at
    most one rollback, then the close, and nothing after the close. A login
    or a refresh ends with the session closed or, when it stops before its
    [try], with the session untouched by commit and rollback; a logout
    always ends with the session closed. *)
Theorem handlers_keep_transaction_discipline
    (S : Type) (D : DAL S) (B : Backend S) (E : Env) :
  (forall client_host login_info s,
      let after h := tx_run TxOpen (calls (h client_host login_info) s) in
      (after (api_login D B E) = Some TxOpen \/ after (api_login D B E) = Some TxClosed)
      /\ (after (web_login D B E) = Some TxOpen \/ after (web_login D B E) = Some TxClosed))
  /\ (forall token s,
        let after h := tx_run TxOpen (calls (h token) s) in
        (after (api_token_refresh D B E) = Some TxOpen
         \/ after (api_token_refresh D B E) = Some TxClosed)
        /\ (after (web_token_refresh D B E) = Some TxOpen
            \/ after (web_token_refresh D B E) = Some TxClosed)
        /\ after (api_logout D B E) = Some TxClosed
        /\ after (web_logout D B E) = Some TxClosed).
Proof.
  split.
  - intros client_host login_info s after. subst after. split.
    + unfold_calls. repeat goal_step; auto.
    + unfold_calls. repeat goal_step; auto.
  - intros token s after. subst after. split; [|split; [|split]].
    + unfold_calls. repeat goal_step; auto.
    + unfold_calls. repeat goal_step; auto.
    + unfold_calls. repeat goal_step; auto.
    + unfold_calls. repeat goal_step; auto.
Qed.

(** Discharge the runs in which the rollback or the close raised, against
    [session_ends_quietly]. *)
Ltac quiet Hrb Hcl :=
  match goal with
  | H : rollback _ ?s = (Raise _, _) |- _ =>
      let P := fresh in pose proof (Hrb s) as P; rewrite H in P; discriminate P
  | H : close _ ?s = (Raise _, _) |- _ =>
      let P := fresh in pose proof (Hcl s) as P; rewrite H in P; discriminate P
  end.

(** X10. A logout never fails on its caller as long as the rollback and the
    close of the session do not raise: whatever the data access object and
    the token's subject are, and whatever the probe, the delete or the
    commit raise, both logout handlers answer, with 200 or with 404. *)
Theorem logout_always_answers
    (S : Type) (D : DAL S) (B : Backend S) (E : Env)
    (token : TokenUser.t) (s : S) :
  session_ends_quietly B ->
  (exists resp,
      answer (api_logout D B E token) s = Ok resp
      /\ (status_code resp = HTTP_200_OK \/ status_code resp = HTTP_404_NOT_FOUND))
  /\ (exists resp,
        answer (web_logout D B E token) s = Ok resp
        /\ (status_code resp = HTTP_200_OK \/ status_code resp = HTTP_404_NOT_FOUND)).
Proof.
  intros [Hrb Hcl]. split.
  - unfold_calls.
    repeat goal_step; try quiet Hrb Hcl;
      (eexists; split; [reflexivity|simpl; auto]).
  - unfold_calls.
    repeat goal_step; try quiet Hrb Hcl;
      (eexists; split; [reflexivity|simpl; auto]).
Qed.

(** On the class as [crud_token.py] has it, whose [exists] is missing, also
    for a token whose subject is not a number. *)
Lemma logout_always_answers_witness :
  let st := mkStore [Ref.row_42] [Ref.row_42] None 1200 in
  (exists resp,
      answer (api_logout RefreshTokenDAL.instance Ref.backend Ref.env
                (TokenUser.mk "42" "tok.old" None)) st = Ok resp
      /\ (status_code resp = 200 \/ status_code resp = 404))
  /\ (exists resp,
        answer (web_logout RefreshTokenDAL.instance Ref.backend Ref.env
                  (TokenUser.mk "root" "tok.old" None)) st = Ok resp
        /\ (status_code resp = 200 \/ status_code resp = 404)).
Proof.
  intros st.
  assert (Hq : session_ends_quietly Ref.backend) by (split; reflexivity).
  split.
  - exact (proj1 (logout_always_answers Store RefreshTokenDAL.instance
                    Ref.backend Ref.env (TokenUser.mk "42" "tok.old" None) st Hq)).
  - exact (proj2 (logout_always_answers Store RefreshTokenDAL.instance
                    Ref.backend Ref.env (TokenUser.mk "root" "tok.old" None) st Hq)).
Defined.

(** ** What the answers carry *)

(** X15. In every answer of the six handlers, the cookies are httpOnly, and
    an answer with another status than 200 carries a message and nothing
    else: no token in its body and no cookie. *)
Theorem only_successful_answers_carry_tokens
    (S : Type) (D : DAL S) (B : Backend S) (E : Env)
    (client_host : string) (login_info : LoginRequestSchema.t)
    (token : TokenUser.t) (w w' : World S) (resp : Response) :
  api_login D B E client_host login_info w = (Ok resp, w')
  \/ web_login D B E client_host login_info w = (Ok resp, w')
  \/ api_logout D B E token w = (Ok resp, w')
  \/ web_logout D B E token w = (Ok resp, w')
  \/ api_token_refresh D B E token w = (Ok resp, w')
  \/ web_token_refresh D B E token w = (Ok resp, w') ->
  (forall c, In c (cookies resp) -> httponly c = true)
  /\ (status_code resp <> HTTP_200_OK ->
      cookies resp = [] /\ exists message, content resp = Message message).
Proof.
  destruct w as [s tr].
  assert (Hleaf : forall (message : string) (code : Z),
            (forall c, In c (cookies (JSONResponse message code)) -> httponly c = true)
            /\ (status_code (JSONResponse message code) <> HTTP_200_OK ->
                cookies (JSONResponse message code) = []
                /\ exists m, content (JSONResponse message code) = Message m)).
  { intros message code. split; [intros c []|]. intros _.
    split; [reflexivity|eexists; reflexivity]. }
  intros [H|[H|[H|[H|[H|H]]]]].
  - unfold api_login in H. unfold_run H.
    repeat run_step H; inversion H; subst; clear H; try apply Hleaf.
    split; [intros c []|]. intros Hne. exfalso. apply Hne. reflexivity.
  - unfold web_login in H. unfold_run H.
    repeat run_step H; inversion H; subst; clear H; try apply Hleaf.
    split.
    + intros c [<-|[<-|[]]]; reflexivity.
    + intros Hne. exfalso. apply Hne. reflexivity.
  - unfold api_logout, logout_try in H. unfold_run H.
    repeat run_step H; inversion H; subst; clear H; apply Hleaf.
  - unfold web_logout, logout_try in H. unfold_run H.
    repeat run_step H; inversion H; subst; clear H; try apply Hleaf.
    split.
    + intros c [<-|[<-|[]]]; reflexivity.
    + intros Hne. exfalso. apply Hne. reflexivity.
  - unfold api_token_refresh, refresh_check in H. unfold_run H.
    repeat run_step H; inversion H; subst; clear H; try apply Hleaf.
    split; [intros c []|]. intros Hne. exfalso. apply Hne. reflexivity.
  - unfold web_token_refresh, refresh_check in H. unfold_run H.
    repeat run_step H; inversion H; subst; clear H; try apply Hleaf.
    split.
    + intros c [<-|[<-|[]]]; reflexivity.
    + intros Hne. exfalso. apply Hne. reflexivity.
Qed.

(** The 500 answer of a login whose insert failed carries no cookie. *)
Lemma only_successful_answers_carry_tokens_witness :
  let login := LoginRequestSchema.mk "user@example.com" "correct horse" in
  let run := web_login RefreshTokenDAL.instance Ref.backend Ref.env "10.0.0.1" login
               (mkStore [] [] (Some 1%nat) 1200, []) in
  exists resp,
    fst run = Ok resp /\ status_code resp = 500 /\ cookies resp = [].
Proof.
  intros login run.
  exists (JSONResponse "Failed to select/insert data" 500).
  split; [reflexivity|]. split; [reflexivity|].
  assert (Hne : status_code (JSONResponse "Failed to select/insert data" 500)
                <> HTTP_200_OK) by discriminate.
  exact (proj1 (proj2 (only_successful_answers_carry_tokens
           Store RefreshTokenDAL.instance Ref.backend Ref.env "10.0.0.1" login
           (TokenUser.mk "42" "tok.old" None)
           (mkStore [] [] (Some 1%nat) 1200, []) (snd run)
           (JSONResponse "Failed to select/insert data" 500)
           (or_intror (or_introl eq_refl))) Hne)).
Defined.

(* ------------------------------------------------------------------ *)
(** * Properties of [RefreshTokenDAL] *)
(* ------------------------------------------------------------------ *)

Lemma round_trip_serving (st : Store) :
  serves st = None -> round_trip st = Some st.
Proof. intros H. unfold round_trip. rewrite H. reflexivity. Qed.

Lemma with_pending_same (st : Store) : with_pending st (pending st) = st.
Proof. destruct st. reflexivity. Qed.

Lemma filter_constant {A} (b : bool) (l : list A) :
  filter (fun _ => b) l = if b then l else [].
Proof.
  destruct b; induction l as [|x l IH]; simpl; try rewrite IH; reflexivity.
Qed.

(** X16. On a layer that serves its statements, the probe of the class
    answers [True] exactly when some row of the table belongs to the user,
    whatever its access token, and changes nothing. *)
Theorem exists_by_user_id_answers_membership (st : Store) (user_id : Z) :
  serves st = None ->
  RefreshTokenDAL.exists_by_user_id user_id st
  = (Ok (existsb (fun r => Token.user_id r =? user_id) (pending st)), st).
Proof.
  intros Hs. unfold RefreshTokenDAL.exists_by_user_id, execute.
  rewrite (round_trip_serving st Hs). rewrite with_pending_same.
  f_equal. f_equal. rewrite filter_constant.
  destruct (existsb (fun r => Token.user_id r =? user_id) (pending st)) eqn:Hb.
  - destruct (pending st); [discriminate Hb|reflexivity].
  - reflexivity.
Qed.

(** Two sessions of user 42 are stored: the probe says yes for 42 and no
    for 7. *)
Lemma exists_by_user_id_answers_membership_witness :
  let st := mkStore [] [Ref.row_42; Ref.row_42'] None 1200 in
  RefreshTokenDAL.exists_by_user_id 42 st = (Ok true, st)
  /\ RefreshTokenDAL.exists_by_user_id 7 st = (Ok false, st).
Proof.
  intros st. split.
  - exact (exists_by_user_id_answers_membership st 42 eq_refl).
  - exact (exists_by_user_id_answers_membership st 7 eq_refl).
Defined.

Lemma no_user_after_delete (user_id : Z) (rows : list Token.t) :
  existsb (fun r => Token.user_id r =? user_id)
          (filter (fun r => negb (Token.user_id r =? user_id)) rows) = false.
Proof.
  induction rows as [|r rows IH]; [reflexivity|].
  simpl. destruct (Token.user_id r =? user_id) eqn:Hr; simpl.
  - exact IH.
  - rewrite Hr. exact IH.
Qed.

Lemma other_user_after_delete (user_id other : Z) (rows : list Token.t) :
  other <> user_id ->
  existsb (fun r => Token.user_id r =? other)
          (filter (fun r => negb (Token.user_id r =? user_id)) rows)
  = existsb (fun r => Token.user_id r =? other) rows.
Proof.
  intros Hne. induction rows as [|r rows IH]; [reflexivity|].
  simpl. destruct (Token.user_id r =? user_id) eqn:Hr; simpl.
  - rewrite IH. apply Z.eqb_eq in Hr.
    destruct (Z.eqb_spec (Token.user_id r) other) as [Heq|]; [|reflexivity].
    exfalso. apply Hne. congruence.
  - rewrite IH. reflexivity.
Qed.

(** X17. On a layer that serves its statements, [delete_by_user_id] removes
    every row of the user, all access tokens alike, and no row of anybody
    else: afterwards the probe says no for that user and answers as before
    for every other user. The committed rows are not touched. *)
Theorem delete_by_user_id_removes_every_session (st : Store) (user_id : Z) :
  serves st = None ->
  exists st',
    RefreshTokenDAL.delete_by_user_id user_id st = (Ok tt, st')
    /\ committed st' = committed st
    /\ (forall r, In r (pending st') <->
                  In r (pending st) /\ Token.user_id r <> user_id)
    /\ RefreshTokenDAL.exists_by_user_id user_id st' = (Ok false, st')
    /\ (forall other, other <> user_id ->
          fst (RefreshTokenDAL.exists_by_user_id other st')
          = fst (RefreshTokenDAL.exists_by_user_id other st)).
Proof.
  intros Hs.
  exists (with_pending st
            (filter (fun r => negb (Token.user_id r =? user_id)) (pending st))).
  assert (Hs' : serves (with_pending st
            (filter (fun r => negb (Token.user_id r =? user_id)) (pending st))) = None)
    by exact Hs.
  split; [|split; [|split; [|split]]].
  - unfold RefreshTokenDAL.delete_by_user_id, execute.
    rewrite (round_trip_serving st Hs). reflexivity.
  - reflexivity.
  - intros r. simpl. rewrite filter_In. rewrite Bool.negb_true_iff, Z.eqb_neq.
    reflexivity.
  - rewrite (exists_by_user_id_answers_membership _ user_id Hs'). simpl.
    rewrite no_user_after_delete. reflexivity.
  - intros other Hne.
    rewrite (exists_by_user_id_answers_membership _ other Hs').
    rewrite (exists_by_user_id_answers_membership _ other Hs). simpl.
    rewrite (other_user_after_delete _ _ _ Hne). reflexivity.
Qed.

(** Both sessions of user 42 go, the session of user 7 stays. *)
Lemma delete_by_user_id_removes_every_session_witness :
  let row_7 := Token.mk 7 "tok.seven" "enc:r7" "mac:r7" 5 605 in
  let st := mkStore [] [Ref.row_42; row_7; Ref.row_42'] None 1200 in
  exists st',
    RefreshTokenDAL.delete_by_user_id 42 st = (Ok tt, st')
    /\ RefreshTokenDAL.exists_by_user_id 42 st' = (Ok false, st')
    /\ fst (RefreshTokenDAL.exists_by_user_id 7 st') = Ok true.
Proof.
  intros row_7 st.
  destruct (delete_by_user_id_removes_every_session st 42 eq_refl)
    as [st' [Hd [_ [_ [Hp Ho]]]]].
  exists st'. split; [exact Hd|]. split; [exact Hp|].
  rewrite (Ho 7); [reflexivity|discriminate].
Defined.

(** X18. On a layer that serves its statements, [insert] adds one row with
    the fields of the schema and keeps the rows there are, without
    committing; afterwards the probe says yes for the record's user, and a
    [delete_by_user_id] of that user leaves what it would have left
    without the insert. *)
Theorem insert_then_probe_and_delete (st : Store) (record : InsertTokenSchema.t) :
  serves st = None ->
  let user_id := InsertTokenSchema.user_id record in
  exists st',
    RefreshTokenDAL.insert record st = (Ok tt, st')
    /\ pending st' = pending st ++ [Token.of_schema record]
    /\ committed st' = committed st
    /\ RefreshTokenDAL.exists_by_user_id user_id st' = (Ok true, st')
    /\ RefreshTokenDAL.delete_by_user_id user_id st'
       = RefreshTokenDAL.delete_by_user_id user_id st.
Proof.
  intros Hs user_id.
  exists (with_pending st (pending st ++ [Token.of_schema record])).
  assert (Hs' : serves (with_pending st (pending st ++ [Token.of_schema record]))
                = None) by exact Hs.
  split; [|split; [|split; [|split]]].
  - unfold RefreshTokenDAL.insert, execute.
    rewrite (round_trip_serving st Hs). reflexivity.
  - reflexivity.
  - reflexivity.
  - rewrite (exists_by_user_id_answers_membership _ user_id Hs'). simpl.
    f_equal. f_equal. rewrite existsb_app. simpl.
    subst user_id. rewrite Z.eqb_refl. simpl. apply Bool.orb_true_r.
  - unfold RefreshTokenDAL.delete_by_user_id, execute.
    rewrite (round_trip_serving _ Hs'), (round_trip_serving _ Hs). simpl.
    unfold with_pending. simpl. f_equal. f_equal.
    rewrite filter_app. simpl. subst user_id. rewrite Z.eqb_refl. simpl.
    apply app_nil_r.
Qed.

Lemma insert_then_probe_and_delete_witness :
  let record := InsertTokenSchema.mk 42 "tok.new" "enc:r" "mac:r" 1200 606000 in
  let st := mkStore [] [] None 1200 in
  exists st',
    RefreshTokenDAL.insert record st = (Ok tt, st')
    /\ RefreshTokenDAL.exists_by_user_id 42 st' = (Ok true, st').
Proof.
  intros record st.
  destruct (insert_then_probe_and_delete st record eq_refl)
    as [st' [Hi [_ [_ [Hp _]]]]].
  exists st'. split; assumption.
Defined.

(* ------------------------------------------------------------------ *)
(** * Properties of [RolesDAL] *)
(* ------------------------------------------------------------------ *)

Lemma dict_get_set (k k1 : string) (v1 : JSON) (row : Payload) :
  dict_get k (RolesDAL.dict_set k1 v1 row)
  = if String.eqb k k1 then Some v1 else dict_get k row.
Proof.
  induction row as [|[k' v'] row IH]; simpl.
  - destruct (String.eqb k k1); reflexivity.
  - destruct (String.eqb_spec k1 k') as [<-|Hne]; simpl.
    + destruct (String.eqb k k1); reflexivity.
    + destruct (String.eqb_spec k k') as [<-|Hne'].
      * destruct (String.eqb_spec k k1) as [->|]; [contradiction Hne; reflexivity|].
        reflexivity.
      * exact IH.
Qed.

Lemma dict_get_assign (k : string) (data row : Payload) :
  dict_get k (RolesDAL.assign data row)
  = match dict_get k data with
    | Some v => Some v
    | None => dict_get k row
    end.
Proof.
  induction data as [|[k1 v1] data IH]; simpl; [reflexivity|].
  rewrite dict_get_set. destruct (String.eqb k k1); [reflexivity|exact IH].
Qed.

Lemma dict_get_del (k k1 : string) (data data' : Payload) :
  RolesDAL.del k1 data = Some data' ->
  dict_get k data' = if String.eqb k k1 then None else dict_get k data.
Proof.
  unfold RolesDAL.del. destruct (dict_has k1 data); [|discriminate].
  intros H; inversion H; subst; clear H.
  induction data as [|[k' v'] data IH]; simpl.
  - destruct (String.eqb k k1); reflexivity.
  - destruct (String.eqb_spec k1 k') as [<-|Hne]; simpl.
    + rewrite IH. destruct (String.eqb k k1); reflexivity.
    + destruct (String.eqb_spec k k') as [<-|Hne'].
      * destruct (String.eqb_spec k k1) as [->|]; [contradiction Hne; reflexivity|].
        reflexivity.
      * exact IH.
Qed.

Lemma del_present (k : string) (data : Payload) :
  dict_get k data <> None -> exists data', RolesDAL.del k data = Some data'.
Proof.
  unfold RolesDAL.del, dict_has. destruct (dict_get k data); [eauto|contradiction].
Qed.

Lemma del_missing (k : string) (data : Payload) :
  dict_get k data = None -> RolesDAL.del k data = None.
Proof.
  unfold RolesDAL.del, dict_has. intros ->. reflexivity.
Qed.

Lemma roles_execute_serving {A} (q : list Payload -> A * list Payload)
      (t : RolesDAL.Table) :
  RolesDAL.serving t = None ->
  RolesDAL.execute q t
  = (RolesDAL.Returns (fst (q (RolesDAL.rows t))),
     RolesDAL.mkTable (snd (q (RolesDAL.rows t))) None).
Proof.
  intros H. unfold RolesDAL.execute. rewrite H.
  destruct (q (RolesDAL.rows t)). reflexivity.
Qed.

Lemma roles_get_serving (role_id : Z) (t : RolesDAL.Table) :
  RolesDAL.serving t = None ->
  RolesDAL.get role_id t
  = (RolesDAL.Returns (find (RolesDAL.has_id role_id) (RolesDAL.rows t)), t).
Proof.
  intros H. unfold RolesDAL.get. rewrite (roles_execute_serving _ _ H). simpl.
  destruct t as [rs sv]. simpl in H. subst sv. reflexivity.
Qed.

Lemma find_map_invariant {A} (p : A -> bool) (f : A -> A) (l : list A) :
  (forall x, p (f x) = p x) ->
  find p (map f l) = option_map f (find p l).
Proof.
  intros Hp. induction l as [|x l IH]; [reflexivity|].
  simpl. rewrite Hp. destruct (p x); [reflexivity|exact IH].
Qed.

Lemma find_map_untouched {A} (p : A -> bool) (f : A -> A) (l : list A) :
  (forall x, p (f x) = p x) -> (forall x, p x = true -> f x = x) ->
  find p (map f l) = find p l.
Proof.
  intros Hp Hf. rewrite (find_map_invariant p f l Hp).
  destruct (find p l) as [x|] eqn:Hx; [|reflexivity].
  simpl. apply find_some in Hx. rewrite (Hf x (proj2 Hx)). reflexivity.
Qed.

Lemma find_filter_kept {A} (p q : A -> bool) (l : list A) :
  (forall x, p x = true -> q x = true) ->
  find p (filter q l) = find p l.
Proof.
  intros Hpq. induction l as [|x l IH]; [reflexivity|].
  simpl. destruct (q x) eqn:Hq; simpl.
  - destruct (p x); [reflexivity|exact IH].
  - destruct (p x) eqn:Hp; [|exact IH].
    rewrite (Hpq x Hp) in Hq. discriminate.
Qed.

Lemma find_filter_gone {A} (p : A -> bool) (l : list A) :
  find p (filter (fun x => negb (p x)) l) = None.
Proof.
  induction l as [|x l IH]; [reflexivity|].
  simpl. destruct (p x) eqn:Hp; simpl; [exact IH|].
  rewrite Hp. exact IH.
Qed.

Lemma has_id_assign (role_id : Z) (data row : Payload) :
  dict_get "id" data = None ->
  RolesDAL.has_id role_id (RolesDAL.assign data row) = RolesDAL.has_id role_id row.
Proof.
  intros H. unfold RolesDAL.has_id. rewrite dict_get_assign, H. reflexivity.
Qed.

Lemma has_id_unique (a b : Z) (row : Payload) :
  RolesDAL.has_id a row = true -> RolesDAL.has_id b row = true -> a = b.
Proof.
  unfold RolesDAL.has_id.
  destruct (dict_get "id" row) as [[| | n | | |]|]; try discriminate.
  intros Ha Hb. apply Z.eqb_eq in Ha. apply Z.eqb_eq in Hb. congruence.
Qed.

(** X19. [update] on a layer that serves its statements. A role without a
    [permissions] field raises [KeyError] and leaves the table alone.
    Otherwise (the role carrying no [id] of its own) the table keeps its
    size, every other role reads as before, and the role with that id reads
    as its old row overwritten by the fields of the request, except
    [permissions], which keeps the value it had. *)
Theorem roles_update_then_get (role_id : Z) (role : Payload) (t : RolesDAL.Table) :
  RolesDAL.serving t = None ->
  (dict_get "permissions" role = None ->
   RolesDAL.update role_id role t = (RolesDAL.Raises (RolesDAL.KeyError "permissions"), t))
  /\ (dict_get "permissions" role <> None ->
      dict_get "id" role = None ->
      exists t',
        RolesDAL.update role_id role t = (RolesDAL.Returns tt, t')
        /\ RolesDAL.serving t' = None
        /\ List.length (RolesDAL.rows t') = List.length (RolesDAL.rows t)
        /\ (forall other, other <> role_id ->
              fst (RolesDAL.get other t') = fst (RolesDAL.get other t))
        /\ match find (RolesDAL.has_id role_id) (RolesDAL.rows t) with
           | None => fst (RolesDAL.get role_id t') = RolesDAL.Returns None
           | Some row =>
               exists row',
                 fst (RolesDAL.get role_id t') = RolesDAL.Returns (Some row')
                 /\ forall k,
                      dict_get k row'
                      = if String.eqb k "permissions" then dict_get k row
                        else match dict_get k role with
                             | Some v => Some v
                             | None => dict_get k row
                             end
           end).
Proof.
  intros Hs. split.
  - intros Hmiss. unfold RolesDAL.update. rewrite (del_missing _ _ Hmiss). reflexivity.
  - intros Hperm Hid.
    destruct (del_present _ _ Hperm) as [data Hdel].
    assert (Hdata : forall k, dict_get k data
                              = if String.eqb k "permissions" then None
                                else dict_get k role)
      by (intros k; exact (dict_get_del k _ _ _ Hdel)).
    assert (Hid' : dict_get "id" data = None) by (rewrite Hdata; exact Hid).
    set (f := fun row => if RolesDAL.has_id role_id row
                         then RolesDAL.assign data row else row).
    set (t' := RolesDAL.mkTable (map f (RolesDAL.rows t)) None).
    assert (Hs' : RolesDAL.serving t' = None) by reflexivity.
    exists t'.
    assert (Hf : forall other row, RolesDAL.has_id other (f row) = RolesDAL.has_id other row).
    { intros other row. unfold f.
      destruct (RolesDAL.has_id role_id row); [|reflexivity].
      apply has_id_assign. exact Hid'. }
    split; [|split; [|split; [|split]]].
    + unfold RolesDAL.update. rewrite Hdel.
      rewrite (roles_execute_serving _ _ Hs). reflexivity.
    + reflexivity.
    + simpl. apply length_map.
    + intros other Hne.
      rewrite (roles_get_serving other t' Hs'), (roles_get_serving other t Hs).
      simpl. f_equal.
      apply find_map_untouched; [apply Hf|].
      intros row Ho. unfold f.
      destruct (RolesDAL.has_id role_id row) eqn:Hr; [|reflexivity].
      exfalso. apply Hne. exact (has_id_unique _ _ _ Ho Hr).
    + rewrite (roles_get_serving role_id t' Hs'). simpl.
      rewrite (find_map_invariant _ f _ (Hf role_id)).
      destruct (find (RolesDAL.has_id role_id) (RolesDAL.rows t)) as [row|] eqn:Hfind;
        [|reflexivity].
      simpl. exists (f row). split; [reflexivity|].
      intros k. unfold f. apply find_some in Hfind. rewrite (proj2 Hfind).
      rewrite dict_get_assign, Hdata.
      destruct (String.eqb k "permissions"); reflexivity.
Qed.

(** Renaming role 2: the name changes, the permissions and the key stay,
    role 1 is read as before. *)
Lemma roles_update_then_get_witness :
  let r1 := [("id", JInt 1); ("name", JStr "admin"); ("permissions", JOther)] in
  let r2 := [("id", JInt 2); ("name", JStr "guest"); ("permissions", JOther)] in
  let t := RolesDAL.mkTable [r1; r2] None in
  let role := [("name", JStr "visitor"); ("permissions", JNull)] in
  exists t',
    RolesDAL.update 2 role t = (RolesDAL.Returns tt, t')
    /\ fst (RolesDAL.get 1 t') = RolesDAL.Returns (Some r1)
    /\ exists row',
         fst (RolesDAL.get 2 t') = RolesDAL.Returns (Some row')
         /\ dict_get "name" row' = Some (JStr "visitor")
         /\ dict_get "permissions" row' = Some JOther.
Proof.
  intros r1 r2 t role.
  assert (Hperm : dict_get "permissions" role <> None) by discriminate.
  destruct (proj2 (roles_update_then_get 2 role t eq_refl) Hperm eq_refl)
    as [t' [Hu [_ [_ [Ho Hrow]]]]].
  exists t'. split; [exact Hu|]. split.
  - rewrite (Ho 1); [reflexivity|discriminate].
  - simpl in Hrow. destruct Hrow as [row' [Hg Hk]].
    exists row'. split; [exact Hg|]. split.
    + exact (Hk "name").
    + exact (Hk "permissions").
Defined.

(** X20. [delete] on a layer that serves its statements removes the rows
    with that id and only those: afterwards [get] of the id returns [None]
    and every other role reads as before. *)
Theorem roles_delete_then_get (role_id : Z) (t : RolesDAL.Table) :
  RolesDAL.serving t = None ->
  exists t',
    RolesDAL.delete role_id t = (RolesDAL.Returns tt, t')
    /\ fst (RolesDAL.get role_id t') = RolesDAL.Returns None
    /\ (forall other, other <> role_id ->
          fst (RolesDAL.get other t') = fst (RolesDAL.get other t))
    /\ (forall row, In row (RolesDAL.rows t') <->
                    In row (RolesDAL.rows t) /\ RolesDAL.has_id role_id row = false)
    /\ fst (RolesDAL.list_ t') = RolesDAL.Returns (RolesDAL.rows t').
Proof.
  intros Hs.
  set (t' := RolesDAL.mkTable
                (filter (fun row => negb (RolesDAL.has_id role_id row))
                        (RolesDAL.rows t))
                None).
  assert (Hs' : RolesDAL.serving t' = None) by reflexivity.
  exists t'.
  split; [|split; [|split; [|split]]].
  - unfold RolesDAL.delete. rewrite (roles_execute_serving _ _ Hs). reflexivity.
  - rewrite (roles_get_serving role_id t' Hs'). simpl.
    rewrite find_filter_gone. reflexivity.
  - intros other Hne.
    rewrite (roles_get_serving other t' Hs'), (roles_get_serving other t Hs).
    simpl. f_equal. apply find_filter_kept.
    intros row Ho. destruct (RolesDAL.has_id role_id row) eqn:Hr; [|reflexivity].
    exfalso. apply Hne. exact (has_id_unique _ _ _ Ho Hr).
  - intros row. simpl. rewrite filter_In, Bool.negb_true_iff. reflexivity.
  - reflexivity.
Qed.

Lemma roles_delete_then_get_witness :
  let r1 := [("id", JInt 1); ("name", JStr "admin")] in
  let r2 := [("id", JInt 2); ("name", JStr "guest")] in
  exists t',
    RolesDAL.delete 2 (RolesDAL.mkTable [r1; r2] None) = (RolesDAL.Returns tt, t')
    /\ fst (RolesDAL.get 2 t') = RolesDAL.Returns None
    /\ fst (RolesDAL.get 1 t') = RolesDAL.Returns (Some r1).
Proof.
  intros r1 r2.
  destruct (roles_delete_then_get 2 (RolesDAL.mkTable [r1; r2] None) eq_refl)
    as [t' [Hd [Hg [Ho _]]]].
  exists t'. split; [exact Hd|]. split; [exact Hg|].
  rewrite (Ho 1); [reflexivity|discriminate].
Defined.

(** X21. [insert] on a layer that serves its statements. A role without a
    [permissions] field raises [KeyError] and leaves the table alone.
    Otherwise the database is handed every field of the request except
    [permissions], one row is added at the end and the rows there were are
    kept. *)
Theorem roles_insert_drops_permissions
    (stored : list Payload -> Payload -> Payload)
    (role : Payload) (t : RolesDAL.Table) :
  RolesDAL.serving t = None ->
  (dict_get "permissions" role = None ->
   RolesDAL.insert stored role t
   = (RolesDAL.Raises (RolesDAL.KeyError "permissions"), t))
  /\ (dict_get "permissions" role <> None ->
      exists data t',
        RolesDAL.insert stored role t = (RolesDAL.Returns tt, t')
        /\ RolesDAL.rows t' = RolesDAL.rows t ++ [stored (RolesDAL.rows t) data]
        /\ dict_get "permissions" data = None
        /\ (forall k, k <> "permissions" -> dict_get k data = dict_get k role)
        /\ fst (RolesDAL.list_ t')
           = RolesDAL.Returns (RolesDAL.rows t ++ [stored (RolesDAL.rows t) data])).
Proof.
  intros Hs. split.
  - intros Hmiss. unfold RolesDAL.insert. rewrite (del_missing _ _ Hmiss). reflexivity.
  - intros Hperm.
    destruct (del_present _ _ Hperm) as [data Hdel].
    exists data, (RolesDAL.mkTable (RolesDAL.rows t ++ [stored (RolesDAL.rows t) data]) None).
    split; [|split; [|split; [|split]]].
    + unfold RolesDAL.insert. rewrite Hdel.
      rewrite (roles_execute_serving _ _ Hs). reflexivity.
    + reflexivity.
    + rewrite (dict_get_del _ _ _ _ Hdel). reflexivity.
    + intros k Hk. rewrite (dict_get_del _ _ _ _ Hdel).
      apply String.eqb_neq in Hk. rewrite Hk. reflexivity.
    + reflexivity.
Qed.

(** A table that numbers its rows: the stored row has the name and the
    generated key, and no permissions. *)
Lemma roles_insert_drops_permissions_witness :
  let stored (rs : list Payload) (data : Payload) :=
    ("id", JInt (Z.of_nat (List.length rs) + 1)) :: data in
  let role := [("name", JStr "guest"); ("permissions", JOther)] in
  exists t',
    RolesDAL.insert stored role (RolesDAL.mkTable [] None) = (RolesDAL.Returns tt, t')
    /\ RolesDAL.rows t' = [[("id", JInt 1); ("name", JStr "guest")]]
    /\ RolesDAL.insert stored [("name", JStr "guest")] (RolesDAL.mkTable [] None)
       = (RolesDAL.Raises (RolesDAL.KeyError "permissions"), RolesDAL.mkTable [] None).
Proof.
  intros stored role.
  assert (Hperm : dict_get "permissions" role <> None) by discriminate.
  destruct (proj2 (roles_insert_drops_permissions stored role
                     (RolesDAL.mkTable [] None) eq_refl) Hperm)
    as [data [t' [Hi [Hr _]]]].
  exists t'. split; [exact Hi|]. split.
  - simpl in Hi. injection Hi as <-. reflexivity.
  - exact (proj1 (roles_insert_drops_permissions stored [("name", JStr "guest")]
                    (RolesDAL.mkTable [] None) eq_refl) eq_refl).
Defined.
